(** * thaplmagic: the [%%thapl] cell magic of ipython-thapl

    A shallow embedding of [thaplmagic.py]: the Python values, exceptions
    and string operations the module relies on, the filesystem and process
    state it acts upon, and the methods of [ThaplMagics] as programs of a
    state-and-exception monad. *)

From Stdlib Require Import ZArith String Ascii List Lia.
From stdpp Require Import base option list strings pretty gmap.

Local Open Scope string_scope.
Local Open Scope Z_scope.

(** Appending to a literal computes under [simpl]. *)
#[local] Arguments String.append : simpl nomatch.

(** ** Python values and exceptions *)

Module Py.

(** The values that occur as attributes of the parsed-argument namespace
    and as operands of [%]-formatting. *)
Inductive Value :=
| VNone
| VBool (b : bool)
| VInt (z : Z)
| VStr (s : string)
| VList (l : list string).

(** Exceptions.  [IOError] is an alias of [OSError] in Python 3, and
    [FileNotFoundError] and [shutil.SameFileError] are subclasses of it, so
    one constructor stands for the whole family an [except OSError] or
    [except IOError] clause catches. *)
Inductive Exn :=
| AttributeError (name : string)
| ValueError (msg : string)
| TypeError (msg : string)
| KeyError (key : string)
| OSError (msg : string)
| ExpatError (msg : string)
| UsageError (msg : string)
| Unmodelled (what : string).

Inductive Res (A : Type) :=
| Ok (a : A)
| Raise (e : Exn).
Arguments Ok {A} a.
Arguments Raise {A} e.

Definition rbind {A B} (r : Res A) (k : A → Res B) : Res B :=
  match r with
  | Ok a => k a
  | Raise e => Raise e
  end.

Definition is_Ok {A} (r : Res A) : bool :=
  match r with Ok _ => true | Raise _ => false end.

Definition is_OSError (e : Exn) : bool :=
  match e with OSError _ => true | _ => false end.

(** Truth value of an optional string: [None] and [''] are falsy. *)
Definition truthy (o : option string) : bool :=
  match o with
  | None => false
  | Some s => negb (String.eqb s "")
  end.

End Py.
Export Py.

Declare Scope res_scope.
Delimit Scope res_scope with res.
Notation "x <~ r ;; k" := (rbind r (fun x => k))
  (at level 100, r at next level, k at level 200, right associativity)
  : res_scope.

(** ** Strings *)

Module Str.

Definition nl : string := String "010" EmptyString.
Definition dquote : string := String (ascii_of_nat 34) EmptyString.

(** [s.split(c)] for a one-character separator: the pieces between the
    occurrences of [c]; never the empty list. *)
Fixpoint split (c : ascii) (s : string) : list string :=
  match s with
  | EmptyString => [""]
  | String a r =>
      if Ascii.eqb a c then "" :: split c r
      else match split c r with
           | h :: t => String a h :: t
           | [] => [String a ""]
           end
  end.

(** [sep.join(l)] *)
Fixpoint join (sep : string) (l : list string) : string :=
  match l with
  | [] => ""
  | [x] => x
  | x :: r => x +:+ sep +:+ join sep r
  end.

Definition is_digit (a : ascii) : bool :=
  let n := N_of_ascii a in (48 <=? n)%N && (n <=? 57)%N.

Definition digit_val (a : ascii) : N := (N_of_ascii a - 48)%N.

(** The characters [int()] skips around the literal of an ASCII string:
    tab, line feed, vertical tab, form feed, carriage return and space. *)
Definition is_space (a : ascii) : bool :=
  let n := N_of_ascii a in
  ((9 <=? n)%N && (n <=? 13)%N) || (n =? 32)%N.

Definition is_ascii (a : ascii) : bool := (N_of_ascii a <? 128)%N.

Fixpoint all_ascii (s : string) : bool :=
  match s with
  | EmptyString => true
  | String a r => is_ascii a && all_ascii r
  end.

(** The number of decimal digits in a string. *)
Fixpoint digit_count (s : string) : nat :=
  match s with
  | EmptyString => O
  | String a r => if is_digit a then S (digit_count r) else digit_count r
  end.

(** [sys.get_int_max_str_digits()], at its default: the longest decimal
    literal [int()] reads and the longest rendering [str()] and [%d]
    produce; beyond it they raise [ValueError]. *)
Definition max_str_digits : nat := 4300.

Definition digits_limit_error : Exn :=
  ValueError "Exceeds the limit (4300 digits) for integer string conversion".

Fixpoint lstrip (s : string) : string :=
  match s with
  | String a r => if is_space a then lstrip r else s
  | EmptyString => EmptyString
  end.

Fixpoint rstrip (s : string) : string :=
  match s with
  | String a r =>
      match rstrip r with
      | EmptyString => if is_space a then EmptyString else String a EmptyString
      | r' => String a r'
      end
  | EmptyString => EmptyString
  end.

Definition strip (s : string) : string := rstrip (lstrip s).

(** Decimal digits with single underscores between digits, as the
    integer literal grammar of [int()] has them.  [prev] tells whether the
    previous character was a digit. *)
Fixpoint digits_go (acc : N) (prev : bool) (s : string) : option N :=
  match s with
  | EmptyString => if prev then Some acc else None
  | String a r =>
      if is_digit a then digits_go (acc * 10 + digit_val a)%N true r
      else if Ascii.eqb a "_" && prev then digits_go acc false r
      else None
  end.

(** [int(s)] on an ASCII string, base 10: surrounding white space is
    skipped, one sign is allowed, and a literal of more than
    [max_str_digits] digits is refused.  A string that holds a character
    outside ASCII (where [int()] also knows other digits and other white
    space) is outside the model. *)
Definition py_int (s : string) : Res Z :=
  if negb (all_ascii s) then
    Raise (Unmodelled "int() of a string that is not ASCII")
  else
    let t := strip s in
    let '(neg, body) :=
      match t with
      | String a r =>
          if Ascii.eqb a "-" then (true, r)
          else if Ascii.eqb a "+" then (false, r)
          else (false, t)
      | EmptyString => (false, t)
      end in
    match digits_go 0 false body with
    | Some n =>
        if (digit_count body <=? max_str_digits)%nat
        then Ok (if neg : bool then - Z.of_N n else Z.of_N n)
        else Raise digits_limit_error
    | None =>
        Raise (ValueError ("invalid literal for int() with base 10: " +:+ s))
    end.

(** [str(z)] for an integer: a rendering of more than [max_str_digits]
    digits is refused. *)
Definition int_str (z : Z) : Res string :=
  if (String.length (pretty (Z.abs z)) <=? max_str_digits)%nat
  then Ok (pretty z)
  else Raise digits_limit_error.

(** [str(v)] for scalars. *)
Definition py_str (v : Value) : Res string :=
  match v with
  | VNone => Ok "None"
  | VBool true => Ok "True"
  | VBool false => Ok "False"
  | VInt z => int_str z
  | VStr s => Ok s
  | VList _ => Raise (Unmodelled "str() of a list")
  end.

End Str.

(** ** The [%] operator on strings *)

Module Fmt.
Import Str.
Local Open Scope res_scope.

(** Right operand of [%]: a tuple of positional operands (a single
    non-tuple operand is the one-element tuple) or a mapping. *)
Inductive Args :=
| Tuple (l : list Value)
| Mapping (m : gmap string Value).

Definition is_flag (a : ascii) : bool :=
  existsb (Ascii.eqb a) ["-"; "+"; " "; "#"; "0"]%char.

Definition is_length_mod (a : ascii) : bool :=
  existsb (Ascii.eqb a) ["h"; "l"; "L"]%char.

Definition is_conversion (a : ascii) : bool :=
  existsb (Ascii.eqb a)
    ["d"; "i"; "u"; "o"; "x"; "X"; "e"; "E"; "f"; "F"; "g"; "G"; "c"; "r";
     "s"; "a"]%char.

(** Reads a parenthesised mapping key up to the closing parenthesis
    (nested parentheses are counted); returns the key and the rest. *)
Fixpoint read_key (depth : nat) (s : string) : option (string * string) :=
  match s with
  | EmptyString => None
  | String a r =>
      if Ascii.eqb a ")" then
        match depth with
        | O => Some ("", r)
        | S d => '(k, r') ← read_key d r; Some (String a k, r')
        end
      else if Ascii.eqb a "(" then
        '(k, r') ← read_key (S depth) r; Some (String a k, r')
      else '(k, r') ← read_key depth r; Some (String a k, r')
  end.

Fixpoint skip_while (p : ascii → bool) (s : string) : string * bool :=
  match s with
  | String a r =>
      if p a then (fst (skip_while p r), true) else (s, false)
  | EmptyString => (s, false)
  end.

(** One conversion applied to its operand.  Flags, width and precision
    are parsed but their effect on the output is outside the model: a
    directive that carries one and is otherwise valid yields
    [Unmodelled]. *)
Definition convert (c : ascii) (plain : bool) (v : Value) : Res string :=
  if negb (is_conversion c) then
    Raise (ValueError ("unsupported format character " +:+ String c ""))
  else if negb plain then Raise (Unmodelled "flags, width or precision")
  else if Ascii.eqb c "s" then py_str v
  else if Ascii.eqb c "d" || Ascii.eqb c "i" || Ascii.eqb c "u" then
    match v with
    | VInt z => int_str z
    | VBool b => Ok (if b then "1" else "0")
    | _ => Raise (TypeError "%d format: a real number is required")
    end
  else Raise (Unmodelled ("conversion " +:+ String c "")).

(** The mapping key of a directive, looked up in the right operand. *)
Definition directive_key (r : string) (args : Args)
  : Res (option Value * string) :=
  match r with
  | String "(" r1 =>
      match args with
      | Mapping m =>
          match read_key 0 r1 with
          | None => Raise (ValueError "incomplete format key")
          | Some (k, r2) =>
              match m !! k with
              | Some v => Ok (Some v, r2)
              | None => Raise (KeyError k)
              end
          end
      | Tuple _ => Raise (TypeError "format requires a mapping")
      end
  | _ => Ok (None, r)
  end.

(** Flags, width, precision and length modifier of a directive: the rest
    of the template from the conversion character on, and whether the
    directive is plain (carries none of them). *)
Definition directive_modifiers (r2 : string) : string * bool :=
  let '(r3, fl) := skip_while is_flag r2 in
  let '(r4, wd) :=
    match r3 with
    | String "*" r' => (r', true)
    | _ => skip_while is_digit r3
    end in
  let '(r5, pr) :=
    match r4 with
    | String "." (String "*" r') => (r', true)
    | String "." r' => (fst (skip_while is_digit r'), true)
    | _ => (r4, false)
    end in
  let r6 :=
    match r5 with
    | String a r' => if is_length_mod a then r' else r5
    | EmptyString => r5
    end in
  (r6, negb (fl || wd || pr)).

(** The formatting loop, left to right.  [fuel] bounds the number of
    characters left; [format] supplies the length of the template. *)
Fixpoint format_go (fuel : nat) (s : string) (pos : list Value)
    (args : Args) : Res string :=
  match fuel with
  | O => Raise (Unmodelled "fuel")
  | S fuel =>
    match s with
    | EmptyString =>
        match args, pos with
        | Tuple _, _ :: _ =>
            Raise (TypeError
                     "not all arguments converted during string formatting")
        | _, _ => Ok ""
        end
    | String "%" r =>
        kr <~ directive_key r args ;;
        let '(r6, plain) := directive_modifiers (snd kr) in
        match r6 with
        | EmptyString => Raise (ValueError "incomplete format")
        | String "%" r7 =>
            rest <~ format_go fuel r7 pos args ;; Ok (String "%" rest)
        | String c r7 =>
            match fst kr with
            | Some v =>
                t <~ convert c plain v ;;
                rest <~ format_go fuel r7 pos args ;;
                Ok (t +:+ rest)
            | None =>
                match args, pos with
                | Tuple _, v :: pos' =>
                    t <~ convert c plain v ;;
                    rest <~ format_go fuel r7 pos' args ;;
                    Ok (t +:+ rest)
                | Tuple _, [] =>
                    Raise (TypeError "not enough arguments for format string")
                | Mapping _, _ =>
                    Raise (Unmodelled "positional directive on a mapping")
                end
            end
        end
    | String a r => rest <~ format_go fuel r pos args ;; Ok (String a rest)
    end
  end.

(** [template % args] *)
Definition format (template : string) (args : Args) : Res string :=
  format_go (S (String.length template)) template
    (match args with Tuple l => l | Mapping _ => [] end) args.

End Fmt.

(** ** Paths (POSIX: [path.sep] is [/], [pathsep] is [:])

    Paths are taken literally: no normalisation of [..], of doubled or
    trailing separators, or of symbolic links. *)

Module Path.

Definition sep : string := "/".
Definition pathsep : string := ":".

Definition is_abs (p : string) : bool :=
  match p with
  | String a _ => Ascii.eqb a "/"
  | EmptyString => false
  end.

Fixpoint ends_with_sep (p : string) : bool :=
  match p with
  | EmptyString => false
  | String a EmptyString => Ascii.eqb a "/"
  | String _ r => ends_with_sep r
  end.

(** [os.path.join(a, b)] for a [b] that is not absolute. *)
Definition path_join (a b : string) : string :=
  if ends_with_sep a then a +:+ b else a +:+ sep +:+ b.

(** The absolute name a path stands for in working directory [cwd]. *)
Definition resolve (cwd p : string) : string :=
  if is_abs p then p else path_join cwd p.

(** [os.path.split]: the part up to the last separator, and the part
    after it. *)
Fixpoint split_last (p : string) : option string * string :=
  match p with
  | EmptyString => (None, "")
  | String a r =>
      match split_last r with
      | (Some d, b) => (Some (String a d), b)
      | (None, b) =>
          if Ascii.eqb a "/" then (Some "", b) else (None, String a b)
      end
  end.

Definition basename (p : string) : string := snd (split_last p).

(** Directory of an absolute path; the root is its own directory. *)
Definition dirname (p : string) : string :=
  match fst (split_last p) with
  | Some EmptyString => "/"
  | Some d => d
  | None => ""
  end.

(** [p] lies strictly below directory [d]. *)
Definition under (d p : string) : bool := String.prefix (d +:+ sep) p.

End Path.

(** ** The state the module acts upon *)

Module Sys.
Import Path.

Record FS := mkFS {
  files : gmap string string;   (* absolute name ↦ bytes *)
  dirs : gset string            (* absolute names of directories *)
}.

Inductive Stream := Stdout | Stderr.

(** What the process does to its surroundings, in order. *)
Inductive Event :=
| EvMkdtemp (d : string)
| EvOpen (mode path : string)
| EvChdir (d : string)
| EvCall (cmd : string) (env : gmap string string)
| EvPrint (to : Stream) (text : string)
| EvPublish (source : string) (data : list (string * string))
    (metadata : option (list (string * string)))
| EvCopy (src dst : string)
| EvRmtree (d : string).

Record World := mkWorld {
  fs : FS;
  cwd : string;
  environ : gmap string string;
  trace : list Event
}.

Definition set_fs (f : FS) (w : World) : World :=
  mkWorld f (cwd w) (environ w) (trace w).
Definition set_cwd (d : string) (w : World) : World :=
  mkWorld (fs w) d (environ w) (trace w).
Definition log_event (e : Event) (w : World) : World :=
  mkWorld (fs w) (cwd w) (environ w) (trace w ++ [e]).

Definition put_file (p content : string) (f : FS) : FS :=
  mkFS (<[p := content]> (files f)) (dirs f).
Definition add_dir (d : string) (f : FS) : FS :=
  mkFS (files f) ({[d]} ∪ dirs f).
Definition remove_tree (d : string) (f : FS) : FS :=
  mkFS (filter (λ kv : string * string, under d kv.1 = false) (files f))
       (filter (λ q, q ≠ d ∧ under d q = false) (dirs f)).

(** Result of running a command through the shell. *)
Inductive Outcome :=
| Exited (retcode : Z) (after : FS)
| LaunchFailed (msg : string).

(** Programs: state passing with exceptions. *)
Definition M (A : Type) : Type := World → Res A * World.

Definition ret {A} (a : A) : M A := λ w, (Ok a, w).
Definition raise {A} (e : Exn) : M A := λ w, (Raise e, w).
Definition lift {A} (r : Res A) : M A := λ w, (r, w).
Definition bind {A B} (m : M A) (k : A → M B) : M B :=
  λ w, match m w with
       | (Ok a, w') => k a w'
       | (Raise e, w') => (Raise e, w')
       end.

(** [try: m  except <catches>: handler] *)
Definition try_except {A} (m : M A) (catches : Exn → bool)
    (handler : Exn → M A) : M A :=
  λ w, match m w with
       | (Ok a, w') => (Ok a, w')
       | (Raise e, w') => if catches e then handler e w' else (Raise e, w')
       end.

Definition emit (e : Event) : M unit := λ w, (Ok tt, log_event e w).
Definition get_world : M World := λ w, (Ok w, w).
Definition modify_fs (g : FS → FS) : M unit :=
  λ w, (Ok tt, set_fs (g (fs w)) w).

End Sys.
Export Sys.

Declare Scope prog_scope.
Delimit Scope prog_scope with prog.
Notation "x <- m ;; k" := (bind m (fun x => k))
  (at level 100, m at next level, k at level 200, right associativity)
  : prog_scope.
Notation "m ;;; k" := (bind m (fun _ => k))
  (at level 100, k at level 200, right associativity) : prog_scope.

(** ** The DOM of [xml.dom.minidom], as far as the module uses it *)

Module Xml.

#[warnings="-register-all"]
Inductive Node :=
| Text (data : string)
| Element (tagName : string) (attributes : list (string * string))
    (childNodes : list Node).

(** [Document.getElementsByTagName(name)] on the document whose root
    element is [n]: the matching elements in document order. *)
Fixpoint getElementsByTagName (name : string) (n : Node) : list Node :=
  match n with
  | Text _ => []
  | Element t _ cs =>
      app (if String.eqb name "*" || String.eqb t name then [n] else [])
          ((fix below (l : list Node) : list Node :=
              match l with
              | [] => []
              | c :: l' => app (getElementsByTagName name c) (below l')
              end) cs)
  end.

Fixpoint assoc (k : string) (l : list (string * string)) : option string :=
  match l with
  | [] => None
  | (k', v) :: r => if String.eqb k' k then Some v else assoc k r
  end.

Fixpoint assoc_set (k v : string) (l : list (string * string))
  : list (string * string) :=
  match l with
  | [] => [(k, v)]
  | (k', v') :: r =>
      if String.eqb k' k then (k, v) :: r else (k', v') :: assoc_set k v r
  end.

(** [Element.getAttribute]: the empty string when the attribute is
    absent. *)
Definition getAttribute (n : Node) (name : string) : string :=
  match n with
  | Element _ attrs _ => default "" (assoc name attrs)
  | Text _ => ""
  end.

Definition setAttribute (n : Node) (name value : string) : Node :=
  match n with
  | Element t attrs cs => Element t (assoc_set name value attrs) cs
  | Text _ => n
  end.

End Xml.

Import Str Fmt Path Xml.

(** ** The module's table of MIME types *)

Definition _mimetypes : gmap string string :=
  list_to_map
    [("png", "image/png"); ("svg", "image/svg+xml");
     ("jpg", "image/jpeg"); ("jpeg", "image/jpeg")].

(** ** The argument schema of [%%thapl]

    One entry per [@argument] decorator of [thapl]: its option strings, the
    attribute it sets, and the attribute's default ([store_true] options
    default to [False], the [nargs='*'] positional to the empty list). *)

Record Argument := mkArgument {
  flags : list string;
  dest : string;
  dflt : Value
}.

Definition thapl_arguments : list Argument :=
  [ mkArgument ["-sc"; "--scale"] "scale" (VInt 1);
    mkArgument ["-s"; "--size"] "size" (VStr "400,240");
    mkArgument ["-f"; "--format"] "format" (VStr "png");
    mkArgument ["-e"; "--encoding"] "encoding" (VStr "utf-8");
    mkArgument ["-x"; "--preamble"] "preamble" (VStr "");
    mkArgument ["-p"; "--package"] "package" (VStr "");
    mkArgument ["-l"; "--library"] "library" (VStr "");
    mkArgument ["-S"; "--save"] "save" VNone;
    mkArgument ["-i"; "--imagemagick"] "imagemagick" (VStr "convert");
    mkArgument ["-po"; "--pictureoptions"] "pictureoptions" (VStr "");
    mkArgument ["--showlatex"] "showlatex" (VBool false);
    mkArgument ["-ct"; "--circuitikz"] "circuitikz" (VBool false);
    mkArgument ["--tikzoptions"] "tikzoptions" (VStr "");
    mkArgument ["code"] "code" (VList []) ].

(** The namespace [parse_argstring] returns: attribute name ↦ value. *)
Abbreviation Namespace := (gmap string Value).

(** The options given on the magic's line, typed as the schema declares
    them ([type=str], [store_true], [nargs='*']); [None] where the option
    was not given. *)
Record Options := mkOptions {
  o_scale : option string;
  o_size : option string;
  o_format : option string;
  o_encoding : option string;
  o_preamble : option string;
  o_package : option string;
  o_library : option string;
  o_save : option string;
  o_imagemagick : option string;
  o_pictureoptions : option string;
  o_showlatex : bool;
  o_circuitikz : bool;
  o_tikzoptions : option string;
  o_code : list string
}.

Definition no_options : Options :=
  mkOptions None None None None None None None None None None
            false false None [].

(** The defaults of the schema, overridden by the options given. *)
Definition given (k : string) (v : option string) (ns : Namespace)
  : Namespace :=
  match v with
  | Some s => <[k := VStr s]> ns
  | None => ns
  end.

Definition defaults : Namespace :=
  list_to_map ((λ a, (dest a, dflt a)) <$> thapl_arguments).

Definition namespace_of (o : Options) : Namespace :=
  given "scale" (o_scale o)
  (given "size" (o_size o)
  (given "format" (o_format o)
  (given "encoding" (o_encoding o)
  (given "preamble" (o_preamble o)
  (given "package" (o_package o)
  (given "library" (o_library o)
  (given "save" (o_save o)
  (given "imagemagick" (o_imagemagick o)
  (given "pictureoptions" (o_pictureoptions o)
  (<["showlatex" := VBool (o_showlatex o)]>
  (<["circuitikz" := VBool (o_circuitikz o)]>
  (given "tikzoptions" (o_tikzoptions o)
  (<["code" := VList (o_code o)]> defaults))))))))))))).

(** Attribute access [ns.name]. *)
Definition getattr (ns : Namespace) (name : string) : Res Value :=
  match ns !! name with
  | Some v => Ok v
  | None => Raise (AttributeError name)
  end.

(** The [str] an attribute declared [type=str] holds. *)
Definition as_str (v : Value) : Res string :=
  match v with
  | VStr s => Ok s
  | _ => Raise (Unmodelled "an attribute of type str that holds no str")
  end.

Definition str_attr (ns : Namespace) (name : string) : Res string :=
  (v <~ getattr ns name ;; as_str v)%res.

Definition value_truthy (v : Value) : bool :=
  match v with
  | VNone => false
  | VBool b => b
  | VInt z => negb (z =? 0)
  | VStr s => negb (String.eqb s "")
  | VList l => match l with [] => false | _ => true end
  end.

(** Unpacking a sequence into one and into two targets. *)
Definition unpack1 {A} (l : list A) : Res A :=
  match l with
  | [x] => Ok x
  | [] => Raise (ValueError "not enough values to unpack (expected 1, got 0)")
  | _ => Raise (ValueError "too many values to unpack (expected 1)")
  end.

Definition unpack2 {A} (l : list A) : Res (A * A) :=
  match l with
  | [x; y] => Ok (x, y)
  | [] | [_] => Raise (ValueError "not enough values to unpack (expected 2)")
  | _ => Raise (ValueError "too many values to unpack (expected 2)")
  end.

(** A list comprehension [[f(x) for x in l]]: left to right, stopping at
    the first exception. *)
Fixpoint comprehension {A B} (f : A → Res B) (l : list A) : Res (list B) :=
  match l with
  | [] => Ok []
  | x :: r => (y <~ f x ;; ys <~ comprehension f r ;; Ok (y :: ys))%res
  end.

(** [width, height = [int(s) for s in size.split(',')]] *)
Definition size_pixels (size : string) : Res (Z * Z) :=
  (ints <~ comprehension py_int (split "," size) ;; unpack2 ints)%res.

(** [for x in l: body(x)] *)
Fixpoint for_each {A} (l : list A) (body : A → M unit) : M unit :=
  match l with
  | [] => ret tt
  | x :: r => (body x ;;; for_each r body)%prog
  end.

(** ** Operating-system and library calls *)

Section Magics.
Local Open Scope prog_scope.

(** [text.encode(encoding)], as writing to a file opened in text mode
    performs it. *)
Variable encode_text : string → string → Res string.
(** Decoding in the locale's encoding, as reading a file opened in text
    mode performs it. *)
Variable decode_text : string → Res string.
(** What running a command does: exit code and files afterwards, or a
    failure to launch. *)
Variable shell : string → gmap string string → string → FS → Outcome.
(** The name [tempfile.mkdtemp] picks. *)
Variable mkdtemp_name : FS → string.
(** [minidom.parseString] and [Node.toxml]. *)
Variable parseString : string → Res Node.
Variable toxml : Node → string.

(** [os.getcwd()]: it fails once the working directory has been
    removed. *)
Definition getcwd : M string :=
  λ w, if decide (cwd w ∈ dirs (fs w)) then (Ok (cwd w), w)
       else (Raise (OSError "No such file or directory"), w).

Definition chdir (d : string) : M unit :=
  emit (EvChdir d) ;;;
  w <- get_world ;;
  let p := resolve (cwd w) d in
  if decide (p ∈ dirs (fs w)) then (λ w, (Ok tt, set_cwd p w))
  else raise (OSError ("No such file or directory: " +:+ d)).

(** [with open(p, 'w', encoding=enc) as f: f.write(text)]: opening creates
    or truncates the file; the text is written once encoded. *)
Definition write_text (p enc text : string) : M unit :=
  emit (EvOpen "w" p) ;;;
  w <- get_world ;;
  let q := resolve (cwd w) p in
  if decide (q ∈ dirs (fs w)) then
    raise (OSError ("Is a directory: " +:+ p))
  else if decide (dirname q ∈ dirs (fs w)) then
    modify_fs (put_file q "") ;;;
    bytes <- lift (encode_text enc text) ;;
    modify_fs (put_file q bytes)
  else raise (OSError ("No such file or directory: " +:+ p)).

(** [open(p, 'rb').read()] *)
Definition read_bytes (p : string) : M string :=
  emit (EvOpen "rb" p) ;;;
  w <- get_world ;;
  match files (fs w) !! resolve (cwd w) p with
  | Some bytes => ret bytes
  | None => raise (OSError ("No such file or directory: " +:+ p))
  end.

(** [f = open(p, 'r'); f.read()] *)
Definition read_text (p : string) : M string :=
  emit (EvOpen "r" p) ;;;
  w <- get_world ;;
  match files (fs w) !! resolve (cwd w) p with
  | Some bytes => lift (decode_text bytes)
  | None => raise (OSError ("No such file or directory: " +:+ p))
  end.

(** [subprocess.call(cmd, shell=True, env=env)]; [env] is [None] when the
    child inherits the environment of the process. *)
Definition call (cmd : string) (env : option (gmap string string)) : M Z :=
  w <- get_world ;;
  let env' := default (environ w) env in
  emit (EvCall cmd env') ;;;
  match shell cmd env' (cwd w) (fs w) with
  | Exited rc after => modify_fs (λ _, after) ;;; ret rc
  | LaunchFailed msg => raise (OSError msg)
  end.

(** [tempfile.mkdtemp()] *)
Definition mkdtemp : M string :=
  w <- get_world ;;
  let d := mkdtemp_name (fs w) in
  emit (EvMkdtemp d) ;;;
  if decide (d ∈ dirs (fs w)) then raise (OSError ("File exists: " +:+ d))
  else modify_fs (add_dir d) ;;; ret d.

(** [shutil.rmtree(d)] *)
Definition rmtree (d : string) : M unit :=
  emit (EvRmtree d) ;;;
  w <- get_world ;;
  let p := resolve (cwd w) d in
  if decide (p ∈ dirs (fs w)) then modify_fs (remove_tree p)
  else raise (OSError ("No such file or directory: " +:+ d)).

(** [shutil.copy(src, dst)]: into [dst] when it is a directory, else onto
    it. *)
Definition copy (src dst : string) : M unit :=
  emit (EvCopy src dst) ;;;
  w <- get_world ;;
  let s := resolve (cwd w) src in
  let d0 := resolve (cwd w) dst in
  let d := if decide (d0 ∈ dirs (fs w)) then path_join d0 (basename s)
           else d0 in
  match files (fs w) !! s with
  | None => raise (OSError ("No such file or directory: " +:+ src))
  | Some bytes =>
      if decide (s = d) then raise (OSError "are the same file")
      else if decide (d ∈ dirs (fs w)) then
        raise (OSError ("Is a directory: " +:+ d))
      else if decide (dirname d ∈ dirs (fs w)) then
        modify_fs (put_file d bytes)
      else raise (OSError ("No such file or directory: " +:+ dst))
  end.

(** [print(text, file=stream)]; [text] is the line without its newline. *)
Definition print (to : Stream) (text : string) : M unit :=
  emit (EvPrint to (text +:+ nl)).


(** ** The methods of [ThaplMagics] *)

Local Open Scope prog_scope.

Definition _fix_gnuplot_svg_size (image : string) (size : option (Z * Z))
  : Res string :=
  (doc <~ parseString image ;;
   svg <~ unpack1 (getElementsByTagName "svg" doc) ;;
   let viewbox := split " " (getAttribute svg "viewBox") in
   wh <~ match size with
         | Some (width, height) => Ok (VInt width, VInt height)
         | None => unpack2 (VStr <$> drop 2 viewbox)
         end ;;
   w <~ format "%dpx" (Tuple [wh.1]) ;;
   let svg := setAttribute svg "width" w in
   h <~ format "%dpx" (Tuple [wh.2]) ;;
   let svg := setAttribute svg "height" h in
   Ok (toxml svg))%res.

Definition _write_thapl (code encoding dir : string) : M unit :=
  write_text (dir +:+ sep +:+ "magic.thapl") encoding code.

(** The environment handed to the LaTeX engine. *)
Definition latex_env (current_dir : string) (env : gmap string string)
  : gmap string string :=
  match env !! "TEXINPUTS" with
  | Some old => <["TEXINPUTS" := current_dir +:+ pathsep +:+ old]> env
  | None =>
      <["TEXINPUTS" := "." +:+ pathsep +:+ current_dir +:+ pathsep +:+ pathsep]>
        env
  end.

Definition _run_latex (code encoding dir : string) : M (option string) :=
  write_text (dir +:+ sep +:+ "magic.tex") encoding code ;;;
  current_dir <- getcwd ;;
  chdir dir ;;;
  w <- get_world ;;
  let env := latex_env current_dir (environ w) in
  ret_log <-
    try_except
      (retcode <- call "xelatex --shell-escape magic.tex" (Some env) ;;
       if negb (retcode =? 0) then
         print Stderr ("LaTeX terminated with signal " +:+ pretty (- retcode)) ;;;
         ret true
       else ret false)
      is_OSError
      (λ e, print Stderr ("LaTeX execution failed: "
                           +:+ match e with OSError m => m | _ => "" end) ;;;
            ret true) ;;
  log <-
    (if ret_log : bool then
       try_except
         (log <- read_text "thapl.log" ;; ret (Some log))
         is_OSError
         (λ _, print Stderr "No log file generated." ;;; ret None)
     else ret None) ;;
  chdir current_dir ;;;
  ret log.

Definition _convert_pdf_to_svg (dir : string) : M unit :=
  current_dir <- getcwd ;;
  chdir dir ;;;
  try_except
    (retcode <- call "pdf2svg magic.pdf magic.svg" None ;;
     if negb (retcode =? 0) then
       print Stderr ("pdf2svg terminated with signal " +:+ pretty (- retcode))
     else ret tt)
    is_OSError
    (λ e, print Stderr ("pdf2svg execution failed: "
                         +:+ match e with OSError m => m | _ => "" end)) ;;;
  chdir current_dir.

Definition _convert_png_to_jpg (dir imagemagick_path : string) : M unit :=
  current_dir <- getcwd ;;
  chdir dir ;;;
  try_except
    (cmd <- lift (format
              "%s magic.png -quality 100 -background white -flatten magic.jpg"
              (Tuple [VStr imagemagick_path])) ;;
     retcode <- call cmd None ;;
     if negb (retcode =? 0) then
       print Stderr ("convert terminated with signal " +:+ pretty (- retcode))
     else ret tt)
    is_OSError
    (λ e, print Stderr ("convert execution failed: "
                         +:+ match e with OSError m => m | _ => "" end)) ;;;
  chdir current_dir.

(** *** [thapl], the cell magic *)

(** [parse_argstring(self.thapl, line)]: IPython's parser over the schema
    above; it raises [UsageError] on a line it rejects. *)
Variable parse_argstring : string → Res Options.

(** The local variables bound by the block that reads the arguments. *)
Record Locals := mkLocals {
  v_scale : Value;
  v_size : string;
  v_width : string;
  v_height : string;
  v_plot_format : string;
  v_encoding : string;
  v_tikz_library : list string;
  v_latex_package : list string;
  v_imagemagick_path : string;
  v_picture_options : string;
  v_tikz_options : string;
  v_python_path : Value
}.

(** [# read arguments]: from [scale = args.scale] to
    [python_path = args.python_path]. *)
Definition read_arguments (args : Namespace) : Res Locals :=
  (scale <~ getattr args "scale" ;;
   size <~ str_attr args "size" ;;
   wh <~ unpack2 (split "," size) ;;
   plot_format <~ str_attr args "format" ;;
   encoding <~ str_attr args "encoding" ;;
   library <~ str_attr args "library" ;;
   let tikz_library := split "," library in
   package <~ str_attr args "package" ;;
   let latex_package := split "," package in
   imagemagick_path <~ str_attr args "imagemagick" ;;
   picture_options <~ str_attr args "pictureoptions" ;;
   tikz_options <~ str_attr args "tikzoptions" ;;
   python_path <~ getattr args "python_path" ;;
   Ok (mkLocals scale size wh.1 wh.2 plot_format encoding tikz_library
         latex_package imagemagick_path picture_options tikz_options
         python_path))%res.

(** [# arguments 'code' in line are prepended to the cell lines] *)
Definition cell_code (args : Namespace) (cell : option string) : Res string :=
  (let code := default "" cell in
   tokens <~ getattr args "code" ;;
   match tokens with
   | VList l => Ok (join "" l +:+ code)
   | _ => Raise (Unmodelled "a positional attribute that holds no list")
   end)%res.

(** The templates of the document. *)
Definition spaces8 : string := "        ".
Definition spaces12 : string := "            ".

Definition tikz_template : string :=
  "\usepackage[%(tikz_options)s]{%(tikz_package)s}" +:+ nl.
Definition package_template : string :=
  nl +:+ "\usepackage{%s}" +:+ nl +:+ spaces12.
Definition library_template : string :=
  nl +:+ "\usetikzlibrary{%s}" +:+ nl +:+ spaces12.
Definition preamble_template : string := nl +:+ "%s" +:+ nl +:+ spaces12.
Definition begin_template : string :=
  nl +:+ "\begin{document}" +:+ nl +:+ spaces8.
Definition bash_template : string :=
  nl +:+ "\bash[stdoutFile=\jobname.thapl.tex]" +:+ nl
  +:+ "PYTHONPATH=" +:+ dquote
  +:+ "%(python_path) python3 -m thapl.main ./magic.thapl" +:+ nl
  +:+ "\END" +:+ nl +:+ nl
  +:+ "\include{\jobname.thapl}" +:+ nl +:+ spaces8.
Definition end_template : string :=
  nl +:+ "\end{document}" +:+ nl +:+ spaces8.

(** [for x in l: tex.append(template % x)] *)
Fixpoint append_formatted (template : string) (l : list string)
    (tex : list string) : Res (list string) :=
  match l with
  | [] => Ok tex
  | x :: r =>
      (f <~ format template (Tuple [VStr x]) ;;
       append_formatted template r (app tex [f]))%res
  end.

(** [locals()], restricted to the variables that hold scalars at the
    point where the document is put together; the templates name no
    other. *)
Definition locals_of (l : Locals) (code plot_dir add_params tikz_env
    tikz_package : string) : gmap string Value :=
  list_to_map
    [("scale", v_scale l); ("size", VStr (v_size l));
     ("width", VStr (v_width l)); ("height", VStr (v_height l));
     ("plot_format", VStr (v_plot_format l));
     ("encoding", VStr (v_encoding l));
     ("imagemagick_path", VStr (v_imagemagick_path l));
     ("picture_options", VStr (v_picture_options l));
     ("tikz_options", VStr (v_tikz_options l));
     ("python_path", v_python_path l);
     ("code", VStr code); ("plot_dir", VStr plot_dir);
     ("add_params", VStr add_params); ("tikz_env", VStr tikz_env);
     ("tikz_package", VStr tikz_package)].

Definition is_raster (plot_format : string) : bool :=
  String.eqb plot_format "png" || String.eqb plot_format "jpg"
  || String.eqb plot_format "jpeg".

(** The list [tex] as it stands before the [\begin{document}] entry is
    appended: class, TikZ package, [bashful], one entry per package, one
    per library, the preamble. *)
Definition tex_preamble (args : Namespace) (l : Locals)
    (code plot_dir : string) : Res (list string * gmap string Value) :=
  (let add_params := if is_raster (v_plot_format l) then "density=300," else "" in
   circuitikz <~ getattr args "circuitikz" ;;
   let tikz_env := if value_truthy circuitikz then "circuitikz"
                   else "tikzpicture" in
   let tikz_package := if value_truthy circuitikz then "circuitikz"
                       else "tikz" in
   let locals := locals_of l code plot_dir add_params tikz_env tikz_package in
   let tex := [] in
   let tex := app tex ["\\documentclass{beamer}"] in
   f <~ format tikz_template (Mapping locals) ;;
   let tex := app tex [f] in
   let tex := app tex ["\usepackage{bashful}" +:+ nl] in
   tex <~ append_formatted package_template (v_latex_package l) tex ;;
   tex <~ append_formatted library_template (v_tikz_library l) tex ;;
   preamble <~ getattr args "preamble" ;;
   tex <~ match preamble with
          | VNone => Ok tex
          | _ => f <~ format preamble_template (Tuple [preamble]) ;;
                 Ok (app tex [f])
          end ;;
   Ok (tex, locals))%res.

(** The whole document: from [tex = []] to [tex = str('').join(tex)]. *)
Definition assemble_tex (args : Namespace) (l : Locals)
    (code plot_dir : string) : Res string :=
  (tl <~ tex_preamble args l code plot_dir ;;
   let '(tex, locals) := tl in
   f <~ format begin_template (Mapping locals) ;;
   let tex := app tex [f] in
   f <~ format bash_template (Mapping locals) ;;
   let tex := app tex [f] in
   f <~ format end_template (Mapping locals) ;;
   let tex := app tex [f] in
   Ok (join "" tex))%res.

(** Publication through [self._publish_display_data]. *)
Definition publish (source : string) (data : list (string * string))
    (metadata : option (list (string * string))) : M unit :=
  emit (EvPublish source data metadata).

(** From [if plot_format == 'jpg' or plot_format == 'jpeg':] to the end
    of [thapl]: conversion, image lookup, saved copy, removal of the
    directory, publication. *)
Definition publish_image (args : Namespace) (l : Locals)
    (plot_dir : string) : M unit :=
  let plot_format := v_plot_format l in
  let key := "ThaplMagic.Thapl" in
  (if String.eqb plot_format "jpg" || String.eqb plot_format "jpeg" then
     _convert_png_to_jpg plot_dir (v_imagemagick_path l)
   else if String.eqb plot_format "svg" then _convert_pdf_to_svg plot_dir
   else ret tt) ;;;
  image_filename <-
    lift (format "%s/tikz.%s" (Tuple [VStr plot_dir; VStr plot_format])) ;;
  display_data <-
    try_except
      (image <- read_bytes image_filename ;;
       fallback <- lift (format "image/%s" (Tuple [VStr plot_format])) ;;
       let plot_mime_type := default fallback (_mimetypes !! plot_format) in
       wh <- lift (size_pixels (v_size l)) ;;
       image <-
         (if String.eqb plot_format "svg" then
            lift (_fix_gnuplot_svg_size image (Some wh))
          else ret image) ;;
       ret [(key, [(plot_mime_type, image)])])
      is_OSError
      (λ _, print Stderr "No image generated." ;;; ret []) ;;
  save <- lift (getattr args "save") ;;
  match save with
  | VNone => ret tt
  | VStr dst => copy image_filename dst
  | _ => raise (Unmodelled "a save attribute that holds no str")
  end ;;;
  rmtree plot_dir ;;;
  for_each display_data
    (λ '(tag, disp_d),
       if String.eqb plot_format "svg" then
         publish tag disp_d (Some [("isolated", "true")])
       else publish tag disp_d None).

(** From [if args.showlatex:] to the end of [thapl]. *)
Definition render_and_publish (args : Namespace) (l : Locals)
    (code plot_dir tex : string) : M unit :=
  showlatex <- lift (getattr args "showlatex") ;;
  if value_truthy showlatex then print Stdout code
  else
    _write_thapl code (v_encoding l) plot_dir ;;;
    latex_log <- _run_latex tex (v_encoding l) plot_dir ;;
    let key := "ThaplMagic.Thapl" in
    if truthy latex_log then
      publish key [("text/plain", default "" latex_log)] None
    else publish_image args l plot_dir.

(** [thapl(self, line, cell)] *)
Definition thapl (line : string) (cell : option string) : M unit :=
  o <- lift (parse_argstring line) ;;
  let args := namespace_of o in
  l <- lift (read_arguments args) ;;
  code <- lift (cell_code args cell) ;;
  plot_dir <- mkdtemp ;;
  tex <- lift (assemble_tex args l code plot_dir) ;;
  render_and_publish args l code plot_dir tex.

End Magics.

(** ** A concrete setting

    A small world and concrete stand-ins for the surroundings, to run the
    methods on. *)

Module Scenario.

Definition utf8 : string → string → Res string := λ _ text, Ok text.
Definition locale : string → Res string := λ bytes, Ok bytes.

Definition disk : FS := mkFS ∅ {[ "/"; "/tmp"; "/home" ]}.
Definition home : World := mkWorld disk "/home" ∅ [].

Definition tmpdir : FS → string := λ _, "/tmp/tmpk3x".
(** The world once the temporary directory exists. *)
Definition prepared : World := set_fs (add_dir "/tmp/tmpk3x" disk) home.

(** LaTeX fails and leaves a log. *)
Definition latex_fails : string → gmap string string → string → FS → Outcome :=
  λ cmd env cwd f,
    Exited 1 (put_file (path_join cwd "thapl.log") "! Undefined control" f).
(** LaTeX fails and leaves nothing. *)
Definition latex_fails_silently
  : string → gmap string string → string → FS → Outcome :=
  λ cmd env cwd f, Exited 1 f.
(** Every command succeeds and leaves [tikz.png]. *)
Definition latex_draws : string → gmap string string → string → FS → Outcome :=
  λ cmd env cwd f, Exited 0 (put_file (path_join cwd "tikz.png") "PNG" f).
(** Every command succeeds and leaves nothing. *)
Definition succeeds_idle : string → gmap string string → string → FS → Outcome :=
  λ cmd env cwd f, Exited 0 f.

Definition one_svg : string → Res Node :=
  λ _, Ok (Element "svg" [("viewBox", "0 0 10 20")] []).
Definition show_size : Node → string :=
  λ n, getAttribute n "width" +:+ " " +:+ getAttribute n "height".

Definition parsed (o : Options) : string → Res Options := λ _, Ok o.

Definition with_size (s : string) : Options :=
  mkOptions None (Some s) None None None None None None None None
            false false None [].
Definition with_save (p : string) : Options :=
  mkOptions None None None None None None None (Some p) None None
            false false None [].
Definition with_showlatex : Options :=
  mkOptions None None None None None None None None None None
            true false None [].

(** The locals the block that reads the arguments would bind for options
    [o], were [python_path] an attribute holding [pp]. *)
Definition locals_for (o : Options) (pp : string) : Locals :=
  let size := default "400,240" (o_size o) in
  mkLocals (from_option VStr (VInt 1) (o_scale o)) size
    (default "" (head (split "," size)))
    (default "" (head (tail (split "," size))))
    (default "png" (o_format o)) (default "utf-8" (o_encoding o))
    (split "," (default "" (o_library o)))
    (split "," (default "" (o_package o)))
    (default "convert" (o_imagemagick o))
    (default "" (o_pictureoptions o)) (default "" (o_tikzoptions o))
    (VStr pp).

(** The worlds along a run on the prepared world: once the source is
    written, and once LaTeX has run under a given shell. *)
Definition written : World :=
  (_write_thapl utf8 "\draw" "utf-8" "/tmp/tmpk3x" prepared).2.
Definition after_latex
    (sh : string → gmap string string → string → FS → Outcome) : World :=
  (_run_latex utf8 locale sh "TEX" "utf-8" "/tmp/tmpk3x" written).2.

End Scenario.

(** * Properties *)

(** ** Strings *)

Module StrFacts.
Import Str.

Lemma append_empty_r (s : string) : s +:+ "" = s.
Proof. induction s as [|a s IH]; simpl; [done | by rewrite IH]. Qed.

Lemma append_assoc (a b c : string) : (a +:+ b) +:+ c = a +:+ (b +:+ c).
Proof. induction a as [|x a IH]; simpl; [done | by rewrite IH]. Qed.


















End StrFacts.

(** ** The namespace *)

Module NsFacts.

Lemma lookup_given_ne k k' v (ns : Namespace) :
  k ≠ k' → given k v ns !! k' = ns !! k'.
Proof. intros H. destruct v; simpl; [by rewrite lookup_insert_ne | done]. Qed.

Lemma lookup_given_eq k v (ns : Namespace) d :
  ns !! k = Some (VStr d) → given k v ns !! k = Some (VStr (default d v)).
Proof. intros H. destruct v; simpl; [by rewrite lookup_insert_eq | done]. Qed.

Ltac ns_strip :=
  unfold namespace_of;
  repeat first [ rewrite lookup_given_ne by done
               | rewrite lookup_insert_ne by done ].

(** No option of the schema sets [python_path]. *)
Lemma python_path_undeclared : "python_path" ∉ dest <$> thapl_arguments.
Proof. intros H%list_elem_of_In. simpl in H. intuition discriminate. Qed.

Lemma namespace_python_path o : namespace_of o !! "python_path" = None.
Proof. ns_strip. reflexivity. Qed.

Lemma namespace_size o :
  namespace_of o !! "size" = Some (VStr (default "400,240" (o_size o))).
Proof. ns_strip. apply lookup_given_eq. ns_strip. reflexivity. Qed.

Ltac ns_str := ns_strip; apply lookup_given_eq; ns_strip; reflexivity.

Lemma namespace_format o :
  namespace_of o !! "format" = Some (VStr (default "png" (o_format o))).
Proof. ns_str. Qed.
Lemma namespace_encoding o :
  namespace_of o !! "encoding" = Some (VStr (default "utf-8" (o_encoding o))).
Proof. ns_str. Qed.
Lemma namespace_preamble o :
  namespace_of o !! "preamble" = Some (VStr (default "" (o_preamble o))).
Proof. ns_str. Qed.
Lemma namespace_package o :
  namespace_of o !! "package" = Some (VStr (default "" (o_package o))).
Proof. ns_str. Qed.
Lemma namespace_library o :
  namespace_of o !! "library" = Some (VStr (default "" (o_library o))).
Proof. ns_str. Qed.
Lemma namespace_imagemagick o :
  namespace_of o !! "imagemagick"
  = Some (VStr (default "convert" (o_imagemagick o))).
Proof. ns_str. Qed.
Lemma namespace_pictureoptions o :
  namespace_of o !! "pictureoptions"
  = Some (VStr (default "" (o_pictureoptions o))).
Proof. ns_str. Qed.
Lemma namespace_tikzoptions o :
  namespace_of o !! "tikzoptions" = Some (VStr (default "" (o_tikzoptions o))).
Proof. ns_str. Qed.
Lemma namespace_scale o :
  namespace_of o !! "scale" = Some (from_option VStr (VInt 1) (o_scale o)).
Proof.
  ns_strip. destruct (o_scale o); simpl; [by rewrite lookup_insert_eq |].
  ns_strip. reflexivity.
Qed.
Lemma namespace_save o :
  namespace_of o !! "save" = Some (from_option VStr VNone (o_save o)).
Proof.
  ns_strip. destruct (o_save o); simpl; [by rewrite lookup_insert_eq |].
  ns_strip. reflexivity.
Qed.
Lemma namespace_showlatex o :
  namespace_of o !! "showlatex" = Some (VBool (o_showlatex o)).
Proof. ns_strip. by rewrite lookup_insert_eq. Qed.
Lemma namespace_circuitikz o :
  namespace_of o !! "circuitikz" = Some (VBool (o_circuitikz o)).
Proof. ns_strip. by rewrite lookup_insert_eq. Qed.
Lemma namespace_code o :
  namespace_of o !! "code" = Some (VList (o_code o)).
Proof. ns_strip. by rewrite lookup_insert_eq. Qed.

(** The attributes of a namespace are those the schema declares. *)
Lemma namespace_dom o k :
  is_Some (namespace_of o !! k) ↔ k ∈ dest <$> thapl_arguments.
Proof.
  assert (∀ k' v (ns : Namespace),
            k' ∈ dest <$> thapl_arguments →
            (is_Some (ns !! k) ↔ k ∈ dest <$> thapl_arguments) →
            (is_Some (given k' v ns !! k) ↔ k ∈ dest <$> thapl_arguments))
    as Hg.
  { intros k' v ns Hk' Hns. destruct v as [s|]; simpl; [| done].
    destruct (decide (k' = k)) as [->|Hne].
    - rewrite lookup_insert_eq. split; [done | by eexists].
    - by rewrite lookup_insert_ne. }
  assert (∀ k' v (ns : Namespace),
            k' ∈ dest <$> thapl_arguments →
            (is_Some (ns !! k) ↔ k ∈ dest <$> thapl_arguments) →
            (is_Some (<[k' := v]> ns !! k) ↔ k ∈ dest <$> thapl_arguments))
    as Hi.
  { intros k' v ns Hk' Hns.
    destruct (decide (k' = k)) as [->|Hne].
    - rewrite lookup_insert_eq. split; [done | by eexists].
    - by rewrite lookup_insert_ne. }
  assert (∀ k', In k' (dest <$> thapl_arguments) →
                k' ∈ dest <$> thapl_arguments) as Hin.
  { intros k' H. by apply list_elem_of_In. }
  assert (is_Some (defaults !! k) ↔ k ∈ dest <$> thapl_arguments) as Hbase.
  { unfold defaults.
    rewrite <- elem_of_dom, dom_list_to_map_L, elem_of_list_to_set.
    by rewrite <- list_fmap_compose. }
  unfold namespace_of.
  repeat first [ exact Hbase
               | apply Hg; [apply Hin; simpl; tauto |]
               | apply Hi; [apply Hin; simpl; tauto |] ].
Qed.

(** The block that reads the arguments never completes: it stops at the
    unpacking of the size, or at [args.python_path]. *)
Lemma read_arguments_raises o :
  read_arguments (namespace_of o)
  = Raise (match unpack2 (split "," (default "400,240" (o_size o))) with
           | Ok _ => AttributeError "python_path"
           | Raise e => e
           end).
Proof.
  unfold read_arguments, str_attr, getattr.
  rewrite namespace_scale, namespace_size. simpl.
  destruct (unpack2 _) as [wh|e]; simpl; [| done].
  rewrite namespace_format, namespace_encoding, namespace_library,
    namespace_package, namespace_imagemagick, namespace_pictureoptions,
    namespace_tikzoptions, namespace_python_path. done.
Qed.

End NsFacts.

(** ** Programs *)

Module MFacts.

Lemma bind_ok {A B} (m : M A) (k : A → M B) w a w' :
  m w = (Ok a, w') → bind m k w = k a w'.
Proof. unfold bind. by intros ->. Qed.

Lemma bind_raise {A B} (m : M A) (k : A → M B) w e w' :
  m w = (Raise e, w') → bind m k w = (Raise e, w').
Proof. unfold bind. by intros ->. Qed.

Lemma bind_lift_ok {A B} (r : Res A) (k : A → M B) w a :
  r = Ok a → bind (lift r) k w = k a w.
Proof. by intros ->. Qed.

Lemma bind_lift_raise {A B} (r : Res A) (k : A → M B) w e :
  r = Raise e → bind (lift r) k w = (Raise e, w).
Proof. by intros ->. Qed.

End MFacts.

(** ** The size string *)

Module SizeFacts.
Import StrFacts.



End SizeFacts.

(** ** [thapl] stops while it reads its arguments *)

Section ThaplStops.
Import NsFacts MFacts.

Variable encode_text : string → string → Res string.
Variable decode_text : string → Res string.
Variable shell : string → gmap string string → string → FS → Outcome.
Variable mkdtemp_name : FS → string.
Variable parseString : string → Res Node.
Variable toxml : Node → string.
Variable parse_argstring : string → Res Options.

Let run_thapl :=
  thapl encode_text decode_text shell mkdtemp_name parseString toxml
    parse_argstring.

(** What an invocation comes to: the parser's exception, or the one of
    the block that reads the arguments; the world is left as it was. *)
Lemma thapl_outcome line cell w :
  run_thapl line cell w
  = (Raise match parse_argstring line with
           | Raise e => e
           | Ok o =>
               match unpack2 (split "," (default "400,240" (o_size o))) with
               | Ok _ => AttributeError "python_path"
               | Raise e => e
               end
           end, w).
Proof.
  unfold run_thapl, thapl, bind, lift.
  destruct (parse_argstring line) as [o|e]; [| done].
  by rewrite read_arguments_raises.
Qed.

Lemma unpack2_length {A} (l : list A) :
  (length l = 2%nat ∧ ∃ x y, unpack2 l = Ok (x, y))
  ∨ (length l ≠ 2%nat ∧ ∃ m, unpack2 l = Raise (ValueError m)).
Proof.
  destruct l as [|x [|y [|z l]]]; simpl;
    first [ left; split; [done | by eauto]
          | right; split; [simpl; lia | by eauto] ].
Qed.

(** C3 (as amended).  No option of the schema sets [python_path].  An
    invocation whose line the parser accepts and whose size string holds
    exactly one comma reads [args.python_path] and fails there with
    [AttributeError]; with any other size string it fails earlier, with
    [ValueError], at the unpacking of the size.  Either way the world is
    as before: no directory was created, no file written, no subprocess
    run. *)
Theorem thapl_stops_at_python_path line cell w o :
  parse_argstring line = Ok o →
  ("python_path" ∉ (dest <$> thapl_arguments))
  ∧ namespace_of o !! "python_path" = None
  ∧ ((length (split "," (default "400,240" (o_size o))) = 2%nat
      ∧ run_thapl line cell w = (Raise (AttributeError "python_path"), w))
     ∨ (length (split "," (default "400,240" (o_size o))) ≠ 2%nat
        ∧ ∃ m, run_thapl line cell w = (Raise (ValueError m), w))).
Proof.
  intros Hp. split; [apply python_path_undeclared |].
  split; [apply namespace_python_path |].
  rewrite thapl_outcome, Hp.
  destruct (unpack2_length (split "," (default "400,240" (o_size o))))
    as [[Hl (x & y & ->)] | [Hl (m & ->)]]; [left | right]; eauto.
Qed.


End ThaplStops.

(** Witness of [thapl_stops_at_python_path]: the magic with no option
    given. *)
Lemma thapl_stops_at_python_path_witness :
  ("python_path" ∉ (dest <$> thapl_arguments))
  ∧ namespace_of no_options !! "python_path" = None
  ∧ ((length (split "," (default "400,240" (o_size no_options))) = 2%nat
      ∧ thapl Scenario.utf8 Scenario.locale Scenario.latex_draws
          Scenario.tmpdir Scenario.one_svg Scenario.show_size
          (Scenario.parsed no_options) "" (Some "\draw") Scenario.home
        = (Raise (AttributeError "python_path"), Scenario.home))
     ∨ (length (split "," (default "400,240" (o_size no_options))) ≠ 2%nat
        ∧ ∃ m, thapl Scenario.utf8 Scenario.locale Scenario.latex_draws
                 Scenario.tmpdir Scenario.one_svg Scenario.show_size
                 (Scenario.parsed no_options) "" (Some "\draw")
                 Scenario.home
               = (Raise (ValueError m), Scenario.home))).
Proof.
  apply (thapl_stops_at_python_path Scenario.utf8 Scenario.locale
           Scenario.latex_draws Scenario.tmpdir Scenario.one_svg
           Scenario.show_size (Scenario.parsed no_options) ""
           (Some "\draw") Scenario.home no_options).
  reflexivity.
Defined.

(** C3, the claim as stated fails: with the size string "1" the
    invocation stops at the unpacking of the size, with [ValueError];
    [args.python_path] is never read. *)
Lemma thapl_size_unpacked_first :
  thapl Scenario.utf8 Scenario.locale Scenario.latex_draws Scenario.tmpdir
    Scenario.one_svg Scenario.show_size
    (Scenario.parsed (Scenario.with_size "1")) "-s 1" (Some "\draw")
    Scenario.home
  = (Raise (ValueError "not enough values to unpack (expected 2)"),
     Scenario.home)
  ∧ (thapl Scenario.utf8 Scenario.locale Scenario.latex_draws
       Scenario.tmpdir Scenario.one_svg Scenario.show_size
       (Scenario.parsed (Scenario.with_size "1")) "-s 1" (Some "\draw")
       Scenario.home).1
    ≠ Raise (AttributeError "python_path").
Proof. split; [by vm_compute | by vm_compute]. Qed.

Local Open Scope list_scope.

(** ** What a program leaves untouched

    [extends P w w']: [w'] has the environment of [w], and its trace is the
    one of [w] followed by events that all satisfy [P]. *)

Module Frame.

Definition extends (P : Event → Prop) (w w' : World) : Prop :=
  environ w' = environ w
  ∧ ∃ evs, trace w' = trace w ++ evs ∧ Forall P evs.

Lemma extends_refl P w : extends P w w.
Proof. split; [done |]. exists []. by rewrite app_nil_r. Qed.

Lemma extends_trans P w1 w2 w3 :
  extends P w1 w2 → extends P w2 w3 → extends P w1 w3.
Proof.
  intros [He1 (evs1 & Ht1 & Hp1)] [He2 (evs2 & Ht2 & Hp2)].
  split; [congruence |]. exists (evs1 ++ evs2). split.
  - by rewrite Ht2, Ht1, app_assoc.
  - by apply Forall_app.
Qed.

Lemma extends_log P e w : P e → extends P w (log_event e w).
Proof.
  intros He. split; [done |]. exists [e]. split; [done | by constructor].
Qed.

Lemma extends_set_fs P f w w' : extends P w w' → extends P w (set_fs f w').
Proof. by intros [? ?]. Qed.

Lemma extends_set_cwd P d w w' : extends P w w' → extends P w (set_cwd d w').
Proof. by intros [? ?]. Qed.

(** A program keeps [P] when every run extends the world by [P]-events. *)
Definition keeps {A} (P : Event → Prop) (m : M A) : Prop :=
  ∀ w, extends P w (m w).2.

Lemma keeps_ret {A} P (a : A) : keeps P (ret a).
Proof. intros w. apply extends_refl. Qed.
Lemma keeps_raise {A} P e : keeps P (@raise A e).
Proof. intros w. apply extends_refl. Qed.
Lemma keeps_lift {A} P (r : Res A) : keeps P (lift r).
Proof. intros w. apply extends_refl. Qed.
Lemma keeps_get_world P : keeps P get_world.
Proof. intros w. apply extends_refl. Qed.
Lemma keeps_modify_fs P g : keeps P (modify_fs g).
Proof. intros w. apply extends_set_fs, extends_refl. Qed.
Lemma keeps_emit P e : P e → keeps P (emit e).
Proof. intros He w. by apply extends_log. Qed.

Lemma keeps_bind {A B} P (m : M A) (k : A → M B) :
  keeps P m → (∀ a, keeps P (k a)) → keeps P (bind m k).
Proof.
  intros Hm Hk w. unfold bind. specialize (Hm w).
  destruct (m w) as [[a|e] w1]; simpl in *; [| done].
  eapply extends_trans; [done | apply Hk].
Qed.

Lemma keeps_try {A} P (m : M A) c h :
  keeps P m → (∀ e, keeps P (h e)) → keeps P (try_except m c h).
Proof.
  intros Hm Hh w. unfold try_except. specialize (Hm w).
  destruct (m w) as [[a|e] w1]; simpl in *; [done |].
  destruct (c e); [| done].
  eapply extends_trans; [done | apply Hh].
Qed.

Lemma keeps_for_each {A} P (l : list A) body :
  (∀ x, keeps P (body x)) → keeps P (for_each l body).
Proof.
  intros Hb. induction l as [|x l IH]; simpl; [apply keeps_ret |].
  apply keeps_bind; [apply Hb | done].
Qed.

Ltac keeps_step :=
  first [ apply keeps_ret | apply keeps_raise | apply keeps_lift
        | apply keeps_get_world | apply keeps_modify_fs
        | apply keeps_bind; [| intros ?]
        | apply keeps_try; [| intros ?]
        | apply keeps_emit
        | case_decide | case_match ].

Section Prims.
Variable encode_text : string → string → Res string.
Variable decode_text : string → Res string.
Variable shell : string → gmap string string → string → FS → Outcome.
Variable mkdtemp_name : FS → string.
Variable P : Event → Prop.

Lemma keeps_getcwd : keeps P getcwd.
Proof. intros w. unfold getcwd. case_decide; apply extends_refl. Qed.

Lemma keeps_chdir d : P (EvChdir d) → keeps P (chdir d).
Proof.
  intros HP. unfold chdir. repeat keeps_step; try done.
Qed.

Lemma keeps_write_text p enc text :
  P (EvOpen "w" p) → keeps P (write_text encode_text p enc text).
Proof. intros HP. unfold write_text. repeat keeps_step; done. Qed.

Lemma keeps_read_bytes p : P (EvOpen "rb" p) → keeps P (read_bytes p).
Proof. intros HP. unfold read_bytes. repeat keeps_step; done. Qed.

Lemma keeps_read_text p :
  P (EvOpen "r" p) → keeps P (read_text decode_text p).
Proof. intros HP. unfold read_text. repeat keeps_step; done. Qed.

Lemma keeps_call cmd env :
  (∀ e, P (EvCall cmd (default e env))) → keeps P (call shell cmd env).
Proof. intros HP. unfold call. repeat keeps_step; done. Qed.

Lemma keeps_mkdtemp :
  (∀ d, P (EvMkdtemp d)) → keeps P (mkdtemp mkdtemp_name).
Proof. intros HP. unfold mkdtemp. repeat keeps_step; done. Qed.

Lemma keeps_rmtree d : P (EvRmtree d) → keeps P (rmtree d).
Proof. intros HP. unfold rmtree. repeat keeps_step; done. Qed.

Lemma keeps_copy src dst : P (EvCopy src dst) → keeps P (copy src dst).
Proof. intros HP. unfold copy. repeat keeps_step; done. Qed.

Lemma keeps_print to text :
  P (EvPrint to (text +:+ nl)) → keeps P (print to text).
Proof. intros HP. by apply keeps_emit. Qed.

Lemma keeps_publish s d m : P (EvPublish s d m) → keeps P (publish s d m).
Proof. intros HP. by apply keeps_emit. Qed.

End Prims.
End Frame.

(** ** The LaTeX run *)

Section RunLatex.
Import Frame.

Variable encode_text : string → string → Res string.
Variable decode_text : string → Res string.
Variable shell : string → gmap string string → string → FS → Outcome.

Lemma write_text_cwd p enc text w :
  cwd (write_text encode_text p enc text w).2 = cwd w.
Proof.
  unfold write_text, bind, emit, get_world, modify_fs, raise, lift. simpl.
  repeat case_decide; simpl; try done.
  by destruct (encode_text enc text).
Qed.

Lemma getcwd_ok w c w' : getcwd w = (Ok c, w') → c = cwd w ∧ w' = w.
Proof. unfold getcwd. case_decide; [| done]. by intros [= <- <-]. Qed.

Lemma getcwd_raises w e w' :
  getcwd w = (Raise e, w') →
  e = OSError "No such file or directory" ∧ w' = w.
Proof. unfold getcwd. case_decide; [done |]. by intros [= <- <-]. Qed.

(** Turns a goal about one run into one about all runs. *)
Ltac to_keeps :=
  lazymatch goal with
  | |- extends ?P ?w (?m ?w).2 =>
      let H := fresh in assert (keeps P m) as H; [| exact (H w)]
  end.

(** Every command [_run_latex] runs is the LaTeX engine, with the
    environment computed from the caller's directory and environment. *)
Lemma run_latex_extends code enc dir w :
  extends (λ e, ∀ cmd env, e = EvCall cmd env →
                 cmd = "xelatex --shell-escape magic.tex"
                 ∧ env = latex_env (cwd w) (environ w))
    w (_run_latex encode_text decode_text shell code enc dir w).2.
Proof.
  set (P := λ e, ∀ cmd env, e = EvCall cmd env → _).
  assert (∀ m p, P (EvOpen m p)) as Hopen by done.
  assert (∀ d, P (EvChdir d)) as Hchdir by done.
  assert (∀ t x, P (EvPrint t x)) as Hprint by done.
  unfold _run_latex. unfold bind at 1.
  pose proof (keeps_write_text encode_text P (dir +:+ sep +:+ "magic.tex")
                enc code (Hopen _ _) w) as H1.
  pose proof (write_text_cwd (dir +:+ sep +:+ "magic.tex") enc code w) as Hc1.
  destruct (write_text _ _ _ _ w) as [[[]|e] w1]; simpl in H1, Hc1; [| done].
  unfold bind at 1.
  destruct (getcwd w1) as [[cur|e] w1'] eqn:Hg;
    [apply getcwd_ok in Hg as [-> ->]
    | by apply getcwd_raises in Hg as [_ ->]].
  rewrite Hc1.
  unfold bind at 1.
  pose proof (keeps_chdir P dir (Hchdir _) w1) as H2.
  destruct (chdir dir w1) as [[[]|e] w2]; simpl in H2;
    [| by eapply extends_trans].
  unfold bind at 1, get_world at 1.
  assert (environ w2 = environ w) as -> by (destruct H1, H2; congruence).
  eapply extends_trans; [by eapply extends_trans |].
  to_keeps.
  repeat first [ apply keeps_call; intros ?
               | apply keeps_print | apply keeps_read_text
               | apply keeps_chdir | keeps_step ]; try done.
  simpl. by intros ?? [= <- <-].
Qed.

(** C9.  Whatever [_run_latex] is given, the process environment is
    afterwards what it was, and every command it ran is the LaTeX engine
    with an environment that maps [TEXINPUTS] to the caller's directory,
    a path separator and the previous value when there was one, else to
    ".", a separator, the caller's directory and two separators, and that
    agrees with the process environment on every other variable. *)
Theorem latex_environment code enc dir w :
  environ (_run_latex encode_text decode_text shell code enc dir w).2
  = environ w
  ∧ ∃ evs,
      trace (_run_latex encode_text decode_text shell code enc dir w).2
      = trace w ++ evs
      ∧ ∀ cmd env, In (EvCall cmd env) evs →
          cmd = "xelatex --shell-escape magic.tex"
          ∧ env !! "TEXINPUTS"
            = Some match environ w !! "TEXINPUTS" with
                   | Some old => cwd w +:+ ":" +:+ old
                   | None => ".:" +:+ cwd w +:+ "::"
                   end
          ∧ ∀ k, k ≠ "TEXINPUTS" → env !! k = environ w !! k.
Proof.
  destruct (run_latex_extends code enc dir w) as [He (evs & Ht & HP)].
  split; [done |]. exists evs. split; [done |].
  intros cmd env Hin%list_elem_of_In.
  rewrite Forall_forall in HP.
  destruct (HP _ Hin cmd env eq_refl) as [-> ->]. split; [done |].
  unfold latex_env. destruct (environ w !! "TEXINPUTS") as [old|].
  - split; [by rewrite lookup_insert_eq |].
    intros k Hk. by rewrite lookup_insert_ne.
  - split; [by rewrite lookup_insert_eq |].
    intros k Hk. by rewrite lookup_insert_ne.
Qed.

End RunLatex.

(** The engine is indeed run, and with [TEXINPUTS] set, in the concrete
    setting. *)
Example latex_environment_run :
  trace (_run_latex Scenario.utf8 Scenario.locale Scenario.latex_draws
           "TEX" "utf-8" "/tmp/tmpk3x" Scenario.prepared).2
  = [EvOpen "w" "/tmp/tmpk3x/magic.tex"; EvChdir "/tmp/tmpk3x";
     EvCall "xelatex --shell-escape magic.tex" {["TEXINPUTS" := ".:/home::"]};
     EvChdir "/home"].
Proof. by vm_compute. Qed.


(** ** Inverting runs *)

Module Inv.

Lemma bind_inv {A B} (m : M A) (k : A → M B) w r w' :
  bind m k w = (r, w') →
  (∃ a w1, m w = (Ok a, w1) ∧ k a w1 = (r, w'))
  ∨ (∃ e, m w = (Raise e, w') ∧ r = Raise e).
Proof.
  unfold bind. destruct (m w) as [[a|e] w1]; intros H.
  - left. eauto.
  - right. exists e. by inversion H.
Qed.

Lemma bind_inv_ok {A B} (m : M A) (k : A → M B) w b w' :
  bind m k w = (Ok b, w') →
  ∃ a w1, m w = (Ok a, w1) ∧ k a w1 = (Ok b, w').
Proof.
  intros [H | (e & _ & [=])]%bind_inv; done.
Qed.

Lemma try_inv {A} (m : M A) c h w r w' :
  try_except m c h w = (r, w') →
  (∃ a, m w = (Ok a, w') ∧ r = Ok a)
  ∨ (∃ e w1, m w = (Raise e, w1) ∧ c e = true ∧ h e w1 = (r, w'))
  ∨ (∃ e, m w = (Raise e, w') ∧ c e = false ∧ r = Raise e).
Proof.
  unfold try_except. destruct (m w) as [[a|e] w1]; intros H.
  - left. exists a. by inversion H.
  - destruct (c e) eqn:Hc.
    + right. left. eauto.
    + right. right. exists e. by inversion H.
Qed.

End Inv.

Section RunLatexResult.
Import Inv Frame.

Variable encode_text : string → string → Res string.
Variable decode_text : string → Res string.
Variable shell : string → gmap string string → string → FS → Outcome.

(** The engine failed: it could not be launched, or exited with a code
    other than 0. *)
Definition failed (o : Outcome) : Prop :=
  match o with
  | Exited rc _ => rc ≠ 0
  | LaunchFailed _ => True
  end.

(** [_run_latex] hands back a log only when the engine failed and
    [thapl.log] could be read. *)
Lemma run_latex_log code enc dir w log w' :
  _run_latex encode_text decode_text shell code enc dir w
  = (Ok (Some log), w') →
  (∃ c f, failed (shell "xelatex --shell-escape magic.tex"
                    (latex_env (cwd w) (environ w)) c f))
  ∧ ∃ bytes, decode_text bytes = Ok log.
Proof.
  unfold _run_latex. intros H.
  apply bind_inv_ok in H as ([] & w1 & Hw & H).
  pose proof (write_text_cwd encode_text (dir +:+ sep +:+ "magic.tex")
                enc code w) as Hc1.
  pose proof (keeps_write_text encode_text (λ _, True)
                (dir +:+ sep +:+ "magic.tex") enc code I w) as [He1 _].
  rewrite Hw in Hc1, He1. simpl in Hc1, He1.
  apply bind_inv_ok in H as (cur & w1' & Hg & H).
  apply getcwd_ok in Hg as [-> ->].
  apply bind_inv_ok in H as ([] & w2 & Hcd & H).
  pose proof (keeps_chdir (λ _, True) dir I w1) as [He2 _].
  rewrite Hcd in He2. simpl in He2.
  apply bind_inv_ok in H as (w2' & w2'' & Hg & H).
  unfold get_world in Hg. injection Hg as <- <-.
  rewrite Hc1, He2, He1 in H.
  apply bind_inv_ok in H as (ret_log & w3 & Htry & H).
  apply bind_inv_ok in H as (lg & w4 & Hlog & H).
  apply bind_inv_ok in H as ([] & w5 & _ & H).
  unfold ret in H. injection H as -> ->.
  destruct ret_log; [| by unfold ret in Hlog].
  split.
  - exists (cwd w2), (fs w2).
    apply try_inv in Htry as [(a & Hb & [= <-]) | [(e & wx & Hb & Hc & Hh)
                                                 | (e & _ & _ & [=])]].
    + unfold call, bind, get_world, emit, modify_fs, ret, raise, print in Hb.
      simpl in Hb.
      destruct (shell _ _ _ _) as [rc after|msg]; [| done].
      simpl in Hb. destruct (rc =? 0) eqn:Hrc; simpl in Hb; [done |].
      simpl. by apply Z.eqb_neq.
    + unfold call, bind, get_world, emit, modify_fs, ret, raise, print in Hb.
      simpl in Hb.
      destruct (shell _ _ _ _) as [rc after|msg]; [| done].
      simpl in Hb. by destruct (rc =? 0).
  - apply try_inv in Hlog as [(a & Hb & [= <-]) | [(e & wx & Hb & Hc & Hh)
                                                 | (e & _ & _ & [=])]].
    + apply bind_inv_ok in Hb as (t & wy & Hr & Hb).
      unfold ret in Hb. injection Hb as -> ->.
      unfold read_text, bind, emit, get_world, raise, lift in Hr.
      simpl in Hr.
      destruct (files _ !! _) as [bytes|]; [| done].
      exists bytes. by injection Hr as -> _.
    + unfold bind, print, emit, ret in Hh. by simpl in Hh.
Qed.

End RunLatexResult.

(** ** The methods extend the world by their own events only *)

Section Methods.
Import Frame NsFacts MFacts.

Variable encode_text : string → string → Res string.
Variable decode_text : string → Res string.
Variable shell : string → gmap string string → string → FS → Outcome.
Variable mkdtemp_name : FS → string.
Variable parseString : string → Res Node.
Variable toxml : Node → string.
Variable parse_argstring : string → Res Options.
Variable P : Event → Prop.

Ltac keeps_auto :=
  repeat first [ apply keeps_call; intros ?
               | apply keeps_print | apply keeps_publish
               | apply keeps_read_text | apply keeps_read_bytes
               | apply keeps_write_text | apply keeps_chdir
               | apply keeps_getcwd | apply keeps_rmtree | apply keeps_copy
               | apply keeps_mkdtemp | apply keeps_for_each; intros ?
               | keeps_step ]; try done.

Lemma keeps_write_thapl code enc dir :
  (∀ p, P (EvOpen "w" p)) →
  keeps P (_write_thapl encode_text code enc dir).
Proof. intros H. unfold _write_thapl. keeps_auto. Qed.

Lemma keeps_run_latex code enc dir :
  (∀ p, P (EvOpen "w" p)) → (∀ p, P (EvOpen "r" p)) →
  (∀ d, P (EvChdir d)) → (∀ x, P (EvPrint Stderr x)) →
  (∀ env, P (EvCall "xelatex --shell-escape magic.tex" env)) →
  keeps P (_run_latex encode_text decode_text shell code enc dir).
Proof. intros ?????. unfold _run_latex. keeps_auto. Qed.

Lemma keeps_convert_pdf_to_svg dir :
  (∀ d, P (EvChdir d)) → (∀ x, P (EvPrint Stderr x)) →
  (∀ env, P (EvCall "pdf2svg magic.pdf magic.svg" env)) →
  keeps P (_convert_pdf_to_svg shell dir).
Proof. intros ???. unfold _convert_pdf_to_svg. keeps_auto. Qed.

Lemma keeps_convert_png_to_jpg dir imagemagick_path :
  (∀ d, P (EvChdir d)) → (∀ x, P (EvPrint Stderr x)) →
  (∀ cmd env, P (EvCall cmd env)) →
  keeps P (_convert_png_to_jpg shell dir imagemagick_path).
Proof. intros ???. unfold _convert_png_to_jpg. keeps_auto. Qed.

End Methods.

(** ** A failed LaTeX run *)

Section Failure.
Import Frame NsFacts MFacts.

Variable encode_text : string → string → Res string.
Variable decode_text : string → Res string.
Variable shell : string → gmap string string → string → FS → Outcome.
Variable parseString : string → Res Node.
Variable toxml : Node → string.

(** Events of a LaTeX run: no image is opened, no converter is run,
    nothing is published, copied or removed. *)
Definition latex_only (e : Event) : Prop :=
  match e with
  | EvOpen mode _ => mode ≠ "rb"
  | EvCall cmd _ => cmd = "xelatex --shell-escape magic.tex"
  | EvChdir _ | EvPrint _ _ => True
  | EvMkdtemp _ | EvPublish _ _ _ | EvCopy _ _ | EvRmtree _ => False
  end.

(** X22.  The block of [thapl] from [if args.showlatex:] on, without
    [--showlatex], once [magic.thapl] is written and [_run_latex] has
    returned.  When it hands back a non-empty log, which it does only
    after the engine failed, the block publishes the log as the one
    [text/plain] payload and returns there: the run up to there opened no
    image, ran no converter and published nothing else.  When the log is
    missing or empty, nothing is published for the failure, and the block
    goes on to conversion and image lookup. *)
Theorem failed_latex_publishes_log o l code plot_dir tex w w1 w2 latex_log :
  o_showlatex o = false →
  _write_thapl encode_text code (v_encoding l) plot_dir w = (Ok tt, w1) →
  _run_latex encode_text decode_text shell tex (v_encoding l) plot_dir w1
  = (Ok latex_log, w2) →
  (∃ evs, trace w2 = trace w ++ evs ∧ Forall latex_only evs)
  ∧ match latex_log with
    | Some (String a s) =>
        (∃ c f, failed (shell "xelatex --shell-escape magic.tex"
                          (latex_env (cwd w1) (environ w1)) c f))
        ∧ render_and_publish encode_text decode_text shell parseString
            toxml (namespace_of o) l code plot_dir tex w
          = (Ok tt,
             log_event (EvPublish "ThaplMagic.Thapl"
                          [("text/plain", String a s)] None) w2)
    | _ =>
        render_and_publish encode_text decode_text shell parseString toxml
          (namespace_of o) l code plot_dir tex w
        = publish_image shell parseString toxml
            (namespace_of o) l plot_dir w2
    end.
Proof.
  intros Hs Hw Hr.
  assert (render_and_publish encode_text decode_text shell parseString toxml
            (namespace_of o) l code plot_dir tex w
          = if truthy latex_log
            then publish "ThaplMagic.Thapl"
                   [("text/plain", default "" latex_log)] None w2
            else publish_image shell parseString toxml
                   (namespace_of o) l plot_dir w2) as Hrun.
  { unfold render_and_publish, getattr.
    rewrite namespace_showlatex, Hs. unfold bind at 1, lift at 1. simpl.
    rewrite (bind_ok _ _ _ _ _ Hw), (bind_ok _ _ _ _ _ Hr).
    by destruct (truthy latex_log). }
  split.
  - pose proof (keeps_write_thapl encode_text latex_only code (v_encoding l)
                  plot_dir) as K1.
    pose proof (keeps_run_latex encode_text decode_text shell latex_only tex
                  (v_encoding l) plot_dir) as K2.
    assert (extends latex_only w w2) as [_ H]; [| done].
    eapply extends_trans.
    + specialize (K1 ltac:(done) w). by rewrite Hw in K1.
    + specialize (K2 ltac:(done) ltac:(done) ltac:(done) ltac:(done)
                    ltac:(done) w1). by rewrite Hr in K2.
  - destruct latex_log as [[|a s]|]; [done | | done].
    split; [| done]. by destruct (run_latex_log _ _ _ _ _ _ _ _ _ Hr).
Qed.

(** With [--showlatex] the block from [if args.showlatex:] on prints the
    raw source text, followed by a newline, on standard output and
    returns: no file is written, no subprocess is run, nothing is
    published. *)
Theorem showlatex_prints_source o l code plot_dir tex w :
  o_showlatex o = true →
  render_and_publish encode_text decode_text shell parseString toxml
    (namespace_of o) l code plot_dir tex w
  = (Ok tt, log_event (EvPrint Stdout (code +:+ nl)) w).
Proof.
  intros Hs. unfold render_and_publish, getattr.
  by rewrite namespace_showlatex, Hs.
Qed.

End Failure.

(** ** Runs in the concrete setting *)

Section Runs.
Import Scenario.

(** The block from [if args.showlatex:] on, run on the prepared world for
    options [o] under shell [sh]. *)
Let run (sh : string → gmap string string → string → FS → Outcome)
    (o : Options) : Res unit * World :=
  render_and_publish utf8 locale sh one_svg show_size (namespace_of o)
    (locals_for o "p") "\draw" "/tmp/tmpk3x" "TEX" prepared.

Let magic (o : Options) : Res unit * World :=
  thapl utf8 locale latex_draws tmpdir one_svg show_size (parsed o) ""
    (Some "\draw") home.

Lemma silent_failure_trace :
  trace (run latex_fails_silently no_options).2
  = [EvOpen "w" "/tmp/tmpk3x/magic.thapl"; EvOpen "w" "/tmp/tmpk3x/magic.tex";
     EvChdir "/tmp/tmpk3x";
     EvCall "xelatex --shell-escape magic.tex" {["TEXINPUTS" := ".:/home::"]};
     EvPrint Stderr ("LaTeX terminated with signal -1" +:+ nl);
     EvOpen "r" "thapl.log";
     EvPrint Stderr ("No log file generated." +:+ nl);
     EvChdir "/home";
     EvOpen "rb" "/tmp/tmpk3x/tikz.png";
     EvPrint Stderr ("No image generated." +:+ nl);
     EvRmtree "/tmp/tmpk3x"].
Proof. by vm_compute. Qed.

(** The block when LaTeX fails and leaves a log: it returns normally
    after publishing the log, and the temporary directory is still there,
    with the files written into it. *)
Theorem workspace_left_after_latex_failure :
  (run latex_fails no_options).1 = Ok tt
  ∧ "/tmp/tmpk3x" ∈ dirs (fs (run latex_fails no_options).2)
  ∧ files (fs (run latex_fails no_options).2) !! "/tmp/tmpk3x/magic.tex"
    = Some "TEX"
  ∧ ∀ d, ¬ In (EvRmtree d) (trace (run latex_fails no_options).2).
Proof.
  split; [by vm_compute |].
  split; [apply (bool_decide_unpack _); by vm_compute |].
  split; [by vm_compute |].
  intros d. vm_compute. intuition discriminate.
Qed.

(** C2, the code at two failing inputs.  The magic without any option
    raises [AttributeError]; and with a save destination and no image
    produced, the block raises the [OSError] of the copy. *)
Theorem exceptions_reach_the_caller :
  magic no_options = (Raise (AttributeError "python_path"), home)
  ∧ (run succeeds_idle (with_save "out.png")).1
    = Raise (OSError "No such file or directory: /tmp/tmpk3x/tikz.png").
Proof. split; by vm_compute. Qed.

(** The block when LaTeX fails and leaves no log: nothing is published,
    and the image file is looked up. *)
Lemma unreadable_log_is_not_published :
  (∀ source data metadata,
     ¬ In (EvPublish source data metadata)
          (trace (run latex_fails_silently no_options).2))
  ∧ In (EvOpen "rb" "/tmp/tmpk3x/tikz.png")
       (trace (run latex_fails_silently no_options).2).
Proof.
  rewrite silent_failure_trace. split.
  - intros s d m. simpl. intuition discriminate.
  - simpl. tauto.
Qed.


(** The block with [--showlatex]: the source goes to standard output;
    nothing is written to the error stream. *)
Lemma showlatex_prints_on_stdout :
  trace (run latex_draws with_showlatex).2 = [EvPrint Stdout ("\draw" +:+ nl)]
  ∧ ∀ text, ¬ In (EvPrint Stderr text)
                 (trace (run latex_draws with_showlatex).2).
Proof.
  split; [by vm_compute |].
  intros text. vm_compute. intuition discriminate.
Qed.

End Runs.

(** Witness of [failed_latex_publishes_log]: LaTeX exits with code 1 and
    leaves a log. *)
Lemma failed_latex_publishes_log_witness :
  (∃ evs, trace (Scenario.after_latex Scenario.latex_fails)
          = trace Scenario.prepared ++ evs
          ∧ Forall latex_only evs)
  ∧ (∃ c f, failed (Scenario.latex_fails "xelatex --shell-escape magic.tex"
                      (latex_env (cwd Scenario.written)
                         (environ Scenario.written)) c f))
  ∧ render_and_publish Scenario.utf8 Scenario.locale Scenario.latex_fails
      Scenario.one_svg Scenario.show_size (namespace_of no_options)
      (Scenario.locals_for no_options "p") "\draw" "/tmp/tmpk3x" "TEX"
      Scenario.prepared
    = (Ok tt,
       log_event (EvPublish "ThaplMagic.Thapl"
                    [("text/plain", "! Undefined control")] None)
         (Scenario.after_latex Scenario.latex_fails)).
Proof.
  apply (failed_latex_publishes_log Scenario.utf8 Scenario.locale
           Scenario.latex_fails Scenario.one_svg Scenario.show_size
           no_options (Scenario.locals_for no_options "p") "\draw"
           "/tmp/tmpk3x" "TEX" Scenario.prepared Scenario.written
           (Scenario.after_latex Scenario.latex_fails)
           (Some "! Undefined control")); by vm_compute.
Defined.

(** Witness of [showlatex_prints_source]. *)
Lemma showlatex_prints_source_witness :
  render_and_publish Scenario.utf8 Scenario.locale Scenario.latex_draws
    Scenario.one_svg Scenario.show_size
    (namespace_of Scenario.with_showlatex)
    (Scenario.locals_for Scenario.with_showlatex "p") "\draw" "/tmp/tmpk3x"
    "TEX" Scenario.prepared
  = (Ok tt, log_event (EvPrint Stdout ("\draw" +:+ nl)) Scenario.prepared).
Proof.
  apply (showlatex_prints_source Scenario.utf8 Scenario.locale
           Scenario.latex_draws Scenario.one_svg Scenario.show_size
           Scenario.with_showlatex). reflexivity.
Defined.

(** ** The size attributes of an SVG *)

Module XmlFacts.

Lemma assoc_set_eq k v l : assoc k (assoc_set k v l) = Some v.
Proof.
  induction l as [|[k' v'] l IH]; simpl.
  - by rewrite String.eqb_refl.
  - destruct (String.eqb k' k) eqn:E; simpl.
    + by rewrite String.eqb_refl.
    + by rewrite E.
Qed.

Lemma assoc_set_ne k k' v l : k ≠ k' → assoc k' (assoc_set k v l) = assoc k' l.
Proof.
  intros Hne. induction l as [|[k0 v0] l IH]; simpl.
  - by apply String.eqb_neq in Hne as ->.
  - destruct (String.eqb k0 k) eqn:E; simpl.
    + apply String.eqb_eq in E as ->.
      by apply String.eqb_neq in Hne as ->.
    + by rewrite IH.
Qed.

Lemma getAttribute_set_eq n k v t attrs cs :
  n = Element t attrs cs → getAttribute (setAttribute n k v) k = v.
Proof. intros ->. simpl. by rewrite assoc_set_eq. Qed.

Lemma getAttribute_set_ne n k k' v :
  k ≠ k' → getAttribute (setAttribute n k v) k' = getAttribute n k'.
Proof. intros Hne. destruct n; simpl; [done |]. by rewrite assoc_set_ne. Qed.

End XmlFacts.

Section SvgSize.
Import XmlFacts.

Variable parseString : string → Res Node.
Variable toxml : Node → string.

Lemma format_px z :
  (String.length (pretty (Z.abs z)) ≤ max_str_digits)%nat →
  format "%dpx" (Tuple [VInt z]) = Ok (pretty z +:+ "px").
Proof.
  intros H%Nat.leb_le.
  change (format "%dpx" (Tuple [VInt z]))
    with (rbind (int_str z) (λ t, Ok (t +:+ "px"))).
  unfold int_str. by rewrite H.
Qed.

(** C7, the code against the claim.  For an image that parses to a
    document with exactly one [svg] element: with an explicit size
    [(W, H)] of at most 4300 digits each, [_fix_gnuplot_svg_size] returns
    the serialisation of that element with its [width] set to the decimal
    rendering of [W] followed by [px] and its [height] to that of [H]
    followed by [px], whatever [viewBox], [width] or [height] it had,
    every other attribute, the tag and the children kept.  Without an
    explicit size the entries of [viewBox] do not become the dimensions:
    the function never returns, and with the four entries of a
    [viewBox] it raises [TypeError], the entries being strings given to
    [%d]. *)
Theorem svg_size_attributes image doc t attrs cs :
  parseString image = Ok doc →
  getElementsByTagName "svg" doc = [Element t attrs cs] →
  (∀ W H : Z,
     (String.length (pretty (Z.abs W)) ≤ max_str_digits)%nat →
     (String.length (pretty (Z.abs H)) ≤ max_str_digits)%nat →
     ∃ attrs',
       _fix_gnuplot_svg_size parseString toxml image (Some (W, H))
       = Ok (toxml (Element t attrs' cs))
       ∧ getAttribute (Element t attrs' cs) "width" = pretty W +:+ "px"
       ∧ getAttribute (Element t attrs' cs) "height" = pretty H +:+ "px"
       ∧ ∀ k, k ≠ "width" → k ≠ "height" →
              getAttribute (Element t attrs' cs) k
              = getAttribute (Element t attrs cs) k)
  ∧ is_Ok (_fix_gnuplot_svg_size parseString toxml image None) = false
  ∧ (length (split " " (getAttribute (Element t attrs cs) "viewBox"))
     = 4%nat →
     _fix_gnuplot_svg_size parseString toxml image None
     = Raise (TypeError "%d format: a real number is required")).
Proof.
  intros Hp Hs. split; [| split].
  - intros W H HW HH.
    exists (assoc_set "height" (pretty H +:+ "px")
              (assoc_set "width" (pretty W +:+ "px") attrs)).
    split; [| split; [| split]].
    + unfold _fix_gnuplot_svg_size. rewrite Hp.
      cbv beta iota delta [rbind]. rewrite Hs.
      cbv beta iota zeta delta [rbind unpack1 fst snd].
      by rewrite !format_px.
    + simpl. rewrite assoc_set_ne by done. by rewrite assoc_set_eq.
    + simpl. by rewrite assoc_set_eq.
    + intros k Hw Hh. simpl. by rewrite !assoc_set_ne by done.
  - unfold _fix_gnuplot_svg_size. rewrite Hp. simpl. rewrite Hs. simpl.
    by destruct (split " " (default "" (assoc "viewBox" attrs)))
      as [|a [|b [|c [|d [|e r]]]]].
  - unfold _fix_gnuplot_svg_size. rewrite Hp. simpl. rewrite Hs. simpl.
    by destruct (split " " (default "" (assoc "viewBox" attrs)))
      as [|a [|b [|c [|d [|e r]]]]].
Qed.

End SvgSize.

(** Witness of [svg_size_attributes]: an element whose [viewBox] says 10
    by 20. *)
Lemma svg_size_attributes_witness :
  (∀ W H : Z,
     (String.length (pretty (Z.abs W)) ≤ max_str_digits)%nat →
     (String.length (pretty (Z.abs H)) ≤ max_str_digits)%nat →
     ∃ attrs',
       _fix_gnuplot_svg_size Scenario.one_svg Scenario.show_size "<svg/>"
         (Some (W, H))
       = Ok (Scenario.show_size (Element "svg" attrs' []))
       ∧ getAttribute (Element "svg" attrs' []) "width" = pretty W +:+ "px"
       ∧ getAttribute (Element "svg" attrs' []) "height" = pretty H +:+ "px"
       ∧ ∀ k, k ≠ "width" → k ≠ "height" →
              getAttribute (Element "svg" attrs' []) k
              = getAttribute (Element "svg" [("viewBox", "0 0 10 20")] []) k)
  ∧ is_Ok (_fix_gnuplot_svg_size Scenario.one_svg Scenario.show_size
             "<svg/>" None) = false
  ∧ (length (split " " (getAttribute
                          (Element "svg" [("viewBox", "0 0 10 20")] [])
                          "viewBox")) = 4%nat →
     _fix_gnuplot_svg_size Scenario.one_svg Scenario.show_size "<svg/>" None
     = Raise (TypeError "%d format: a real number is required")).
Proof.
  apply (svg_size_attributes Scenario.one_svg Scenario.show_size "<svg/>"
           (Element "svg" [("viewBox", "0 0 10 20")] []));
    reflexivity.
Defined.

(** ** The document *)

Section Document.
Import NsFacts.

(** The entry appended for a LaTeX package, and for a TikZ library. *)
Let usepackage (pkg : string) : string :=
  nl +:+ "\usepackage{" +:+ pkg +:+ "}" +:+ nl +:+ spaces12.
Let usetikzlibrary (lib : string) : string :=
  nl +:+ "\usetikzlibrary{" +:+ lib +:+ "}" +:+ nl +:+ spaces12.

Lemma append_formatted_package pkgs tex :
  append_formatted package_template pkgs tex
  = Ok (tex ++ (usepackage <$> pkgs)).
Proof.
  revert tex. induction pkgs as [|p pkgs IH]; intros tex; simpl.
  - by rewrite app_nil_r.
  - change (format package_template (Tuple [VStr p])) with (Ok (usepackage p)).
    simpl. rewrite IH. by rewrite <- app_assoc.
Qed.

Lemma append_formatted_library libs tex :
  append_formatted library_template libs tex
  = Ok (tex ++ (usetikzlibrary <$> libs)).
Proof.
  revert tex. induction libs as [|p libs IH]; intros tex; simpl.
  - by rewrite app_nil_r.
  - change (format library_template (Tuple [VStr p]))
      with (Ok (usetikzlibrary p)).
    simpl. rewrite IH. by rewrite <- app_assoc.
Qed.

Lemma format_tikz l code plot_dir add_params tikz_env tikz_package :
  format tikz_template
    (Mapping (locals_of l code plot_dir add_params tikz_env tikz_package))
  = Ok ("\usepackage[" +:+ v_tikz_options l +:+ "]{" +:+ tikz_package +:+ "}"
        +:+ nl).
Proof. reflexivity. Qed.

Lemma format_preamble pre :
  format preamble_template (Tuple [VStr pre])
  = Ok (nl +:+ pre +:+ nl +:+ spaces12).
Proof. reflexivity. Qed.

(** X23.  The list of entries the document is put together from holds,
    after the class and the two fixed packages, exactly one
    [\usepackage{...}] entry per piece of the package string split at its
    commas, in the order of the string; the library entries and the
    preamble follow. *)
Theorem package_lines_in_order o l code plot_dir :
  v_latex_package l = split "," (default "" (o_package o)) →
  ∃ locals,
    tex_preamble (namespace_of o) l code plot_dir
    = Ok (["\\documentclass{beamer}";
           "\usepackage[" +:+ v_tikz_options l +:+ "]{"
             +:+ (if o_circuitikz o then "circuitikz" else "tikz") +:+ "}"
             +:+ nl;
           "\usepackage{bashful}" +:+ nl]
          ++ ((λ pkg, nl +:+ "\usepackage{" +:+ pkg +:+ "}" +:+ nl +:+ spaces12)
                <$> split "," (default "" (o_package o)))
          ++ ((λ lib, nl +:+ "\usetikzlibrary{" +:+ lib +:+ "}" +:+ nl
                        +:+ spaces12) <$> v_tikz_library l)
          ++ [nl +:+ default "" (o_preamble o) +:+ nl +:+ spaces12],
          locals).
Proof.
  intros Hpk. eexists. unfold tex_preamble, getattr.
  rewrite namespace_circuitikz, namespace_preamble, Hpk.
  cbv beta iota zeta delta [rbind value_truthy].
  rewrite format_tikz.
  cbv beta iota zeta delta [rbind].
  rewrite append_formatted_package.
  cbv beta iota zeta delta [rbind].
  rewrite append_formatted_library.
  cbv beta iota zeta delta [rbind].
  rewrite format_preamble.
  cbv beta iota zeta delta [rbind].
  rewrite <- !app_assoc.
  reflexivity.
Qed.

End Document.

(** Witness of [package_lines_in_order]: the package string
    "pgfplots,textcomp". *)
Lemma package_lines_in_order_witness :
  ∃ locals,
    tex_preamble
      (namespace_of (mkOptions None None None None None
                       (Some "pgfplots,textcomp") None None None None
                       false false None []))
      (mkLocals (VInt 1) "400,240" "400" "240" "png" "utf-8" [""]
         ["pgfplots"; "textcomp"] "convert" "" "" (VStr "p"))
      "\draw" "/tmp/tmpk3x"
    = Ok (["\\documentclass{beamer}";
           "\usepackage[]{tikz}" +:+ nl;
           "\usepackage{bashful}" +:+ nl;
           nl +:+ "\usepackage{pgfplots}" +:+ nl +:+ spaces12;
           nl +:+ "\usepackage{textcomp}" +:+ nl +:+ spaces12;
           nl +:+ "\usetikzlibrary{}" +:+ nl +:+ spaces12;
           nl +:+ nl +:+ spaces12],
          locals).
Proof.
  apply (package_lines_in_order
           (mkOptions None None None None None (Some "pgfplots,textcomp")
              None None None None false false None [])
           (mkLocals (VInt 1) "400,240" "400" "240" "png" "utf-8" [""]
              ["pgfplots"; "textcomp"] "convert" "" "" (VStr "p"))
           "\draw" "/tmp/tmpk3x").
  reflexivity.
Defined.

(** ** The saved copy *)

Module PathFacts.

Lemma is_abs_app d x : is_abs d = true → is_abs (d +:+ x) = true.
Proof. by destruct d. Qed.

Lemma resolve_abs c p : is_abs p = true → resolve c p = p.
Proof. unfold resolve. by intros ->. Qed.

Lemma prefix_app a b : String.prefix a (a +:+ b) = true.
Proof.
  induction a as [|x a IH]; simpl; [by destruct b |].
  by destruct (ascii_dec x x).
Qed.

Lemma under_child d name : under d (d +:+ sep +:+ name) = true.
Proof.
  unfold under. rewrite <- StrFacts.append_assoc. apply prefix_app.
Qed.

End PathFacts.

Section SavedCopy.
Import PathFacts NsFacts MFacts Inv.

Variable encode_text : string → string → Res string.
Variable decode_text : string → Res string.
Variable shell : string → gmap string string → string → FS → Outcome.
Variable parseString : string → Res Node.
Variable toxml : Node → string.

Lemma size_pixels_error size e :
  size_pixels size = Raise e → is_OSError e = false.
Proof.
  unfold size_pixels.
  assert (∀ l e, comprehension py_int l = Raise e → is_OSError e = false)
    as Hc.
  { induction l as [|s l IH]; simpl; [done |]. intros e'.
    destruct (py_int s) as [z|e0] eqn:E; simpl.
    - destruct (comprehension py_int l); simpl; [done |].
      intros [= <-]. by apply IH.
    - intros [= <-]. revert E. unfold py_int, digits_limit_error.
      repeat case_match; by intros [= <-]. }
  destruct (comprehension py_int _) as [ints|e0] eqn:E; simpl.
  - destruct ints as [|x [|y [|z r]]]; simpl; by intros [= <-].
  - intros [= <-]. by eapply Hc.
Qed.

(** The run of [publish_image] for a png that is there, with a save
    destination: the world it ends in, when it returns. *)
Lemma publish_image_png_saved o l plot_dir dst w w' image :
  v_plot_format l = "png" → o_save o = Some dst →
  is_abs plot_dir = true →
  files (fs w) !! (plot_dir +:+ "/tikz.png") = Some image →
  resolve (cwd w) dst ∉ dirs (fs w) →
  publish_image shell parseString toxml (namespace_of o) l plot_dir w
  = (Ok tt, w') →
  w' = log_event
         (EvPublish "ThaplMagic.Thapl" [("image/png", image)] None)
         (set_fs (remove_tree plot_dir
                    (put_file (resolve (cwd w) dst) image (fs w)))
            (log_event (EvRmtree plot_dir)
               (log_event (EvCopy (plot_dir +:+ "/tikz.png") dst)
                  (log_event (EvOpen "rb" (plot_dir +:+ "/tikz.png")) w)))).
Proof.
  intros Hfmt Hsave Habs Himg Hdst Hrun.
  unfold publish_image, getattr in Hrun.
  rewrite namespace_save, Hsave, Hfmt in Hrun.
  change (_mimetypes !! "png") with (Some "image/png") in Hrun.
  simpl in Hrun.
  change (format "%s/tikz.%s" (Tuple [VStr plot_dir; VStr "png"]))
    with (Ok (plot_dir +:+ "/tikz.png")) in Hrun.
  apply bind_inv_ok in Hrun as ([] & w0 & [= <-] & Hrun).
  apply bind_inv_ok in Hrun as (img & w0 & [= <- <-] & Hrun).
  apply bind_inv_ok in Hrun as (display_data & w3 & Htry & Hrun).
  assert (read_bytes (plot_dir +:+ "/tikz.png") w
          = (Ok image,
             log_event (EvOpen "rb" (plot_dir +:+ "/tikz.png")) w)) as Hread.
  { unfold read_bytes, bind, emit, get_world, ret, raise. simpl.
    rewrite resolve_abs by by apply is_abs_app. by rewrite Himg. }
  assert (display_data = [("ThaplMagic.Thapl", [("image/png", image)])]
          ∧ w3 = log_event (EvOpen "rb" (plot_dir +:+ "/tikz.png")) w)
    as [-> ->].
  { apply try_inv in Htry
        as [(a & Hb & [= <-]) | [(e & wx & Hb & Hc & Hh) | (e & _ & _ & [=])]].
    - rewrite (bind_ok _ _ _ _ _ Hread) in Hb.
      unfold bind, lift, ret in Hb. simpl in Hb.
      destruct (size_pixels (v_size l)); by inversion Hb.
    - rewrite (bind_ok _ _ _ _ _ Hread) in Hb.
      unfold bind, lift, ret in Hb. simpl in Hb.
      destruct (size_pixels (v_size l)) eqn:Hsz; [done |].
      injection Hb as <- _. by rewrite (size_pixels_error _ _ Hsz) in Hc. }
  apply bind_inv_ok in Hrun as (save & w0 & [= <- <-] & Hrun).
  apply bind_inv_ok in Hrun as ([] & w4 & Hcopy & Hrun).
  apply bind_inv_ok in Hrun as ([] & w5 & Hrm & Hrun).
  simpl in Hrun. unfold bind, publish, emit, ret in Hrun. simpl in Hrun.
  injection Hrun as <-.
  unfold copy, bind, emit, get_world, modify_fs, raise in Hcopy.
  simpl in Hcopy.
  rewrite (resolve_abs _ (plot_dir +:+ "/tikz.png")) in Hcopy
    by by apply is_abs_app.
  rewrite (decide_False (P := resolve (cwd w) dst ∈ dirs (fs w))) in Hcopy
    by done.
  rewrite Himg in Hcopy.
  repeat case_decide; try done. injection Hcopy as <-.
  unfold rmtree, bind, emit, get_world, modify_fs, raise in Hrm.
  simpl in Hrm. rewrite (resolve_abs _ plot_dir) in Hrm by done.
  case_decide; [| done]. injection Hrm as <-.
  reflexivity.
Qed.

(** Once the source is written and LaTeX has run, the block publishes the
    log when it is non-empty, and goes on with [publish_image] else. *)
Lemma render_after_latex o l code plot_dir tex w w1 w2 latex_log :
  o_showlatex o = false →
  _write_thapl encode_text code (v_encoding l) plot_dir w = (Ok tt, w1) →
  _run_latex encode_text decode_text shell tex (v_encoding l) plot_dir w1
  = (Ok latex_log, w2) →
  render_and_publish encode_text decode_text shell parseString toxml
    (namespace_of o) l code plot_dir tex w
  = if truthy latex_log
    then publish "ThaplMagic.Thapl"
           [("text/plain", default "" latex_log)] None w2
    else publish_image shell parseString toxml (namespace_of o) l plot_dir w2.
Proof.
  intros Hs Hw Hr. unfold render_and_publish, getattr.
  rewrite namespace_showlatex, Hs. unfold bind at 1, lift at 1. simpl.
  rewrite (bind_ok _ _ _ _ _ Hw), (bind_ok _ _ _ _ _ Hr).
  by destruct (truthy latex_log).
Qed.

(** The block with a save destination, a png format and a LaTeX run that
    hands back no log and leaves [tikz.png] in the temporary directory:
    when the block returns, the file at the save destination holds
    the bytes of [tikz.png] that were read and published, and the
    temporary directory is gone.  The destination is taken to be a file
    name outside the temporary directory. *)
Theorem saved_copy_is_image o l code plot_dir tex dst w w1 w2 w' latex_log
    image :
  o_showlatex o = false → o_save o = Some dst → v_plot_format l = "png" →
  is_abs plot_dir = true →
  _write_thapl encode_text code (v_encoding l) plot_dir w = (Ok tt, w1) →
  _run_latex encode_text decode_text shell tex (v_encoding l) plot_dir w1
  = (Ok latex_log, w2) →
  truthy latex_log = false →
  files (fs w2) !! (plot_dir +:+ "/tikz.png") = Some image →
  resolve (cwd w2) dst ∉ dirs (fs w2) →
  under plot_dir (resolve (cwd w2) dst) = false →
  render_and_publish encode_text decode_text shell parseString toxml
    (namespace_of o) l code plot_dir tex w = (Ok tt, w') →
  files (fs w') !! resolve (cwd w2) dst = Some image
  ∧ (plot_dir ∉ dirs (fs w'))
  ∧ trace w'
    = trace w2
      ++ [EvOpen "rb" (plot_dir +:+ "/tikz.png");
          EvCopy (plot_dir +:+ "/tikz.png") dst;
          EvRmtree plot_dir;
          EvPublish "ThaplMagic.Thapl" [("image/png", image)] None].
Proof.
  intros Hs Hsave Hfmt Habs Hw Hr Hlog Himg Hdst Hout Hrun.
  rewrite (render_after_latex _ _ _ _ _ _ _ _ _ Hs Hw Hr), Hlog in Hrun.
  apply (publish_image_png_saved _ _ _ _ _ _ _ Hfmt Hsave Habs Himg Hdst)
    in Hrun as ->.
  split; [| split].
  - simpl. apply map_lookup_filter_Some_2; [| done].
    by rewrite lookup_insert_eq.
  - simpl. rewrite elem_of_filter. by intros [[? _] _].
  - simpl. by rewrite <- !app_assoc.
Qed.

End SavedCopy.

(** Witness of [saved_copy_is_image]: LaTeX leaves [tikz.png], the copy
    goes to [out.png] in the caller's directory. *)
Lemma saved_copy_is_image_witness :
  files (fs (render_and_publish Scenario.utf8 Scenario.locale
               Scenario.latex_draws Scenario.one_svg Scenario.show_size
               (namespace_of (Scenario.with_save "out.png"))
               (Scenario.locals_for (Scenario.with_save "out.png") "p")
               "\draw" "/tmp/tmpk3x" "TEX" Scenario.prepared).2)
    !! resolve (cwd (Scenario.after_latex Scenario.latex_draws)) "out.png"
  = Some "PNG"
  ∧ ("/tmp/tmpk3x"
     ∉ dirs (fs (render_and_publish Scenario.utf8 Scenario.locale
                   Scenario.latex_draws Scenario.one_svg Scenario.show_size
                   (namespace_of (Scenario.with_save "out.png"))
                   (Scenario.locals_for (Scenario.with_save "out.png") "p")
                   "\draw" "/tmp/tmpk3x" "TEX" Scenario.prepared).2))
  ∧ trace (render_and_publish Scenario.utf8 Scenario.locale
             Scenario.latex_draws Scenario.one_svg Scenario.show_size
             (namespace_of (Scenario.with_save "out.png"))
             (Scenario.locals_for (Scenario.with_save "out.png") "p")
             "\draw" "/tmp/tmpk3x" "TEX" Scenario.prepared).2
    = trace (Scenario.after_latex Scenario.latex_draws)
      ++ [EvOpen "rb" ("/tmp/tmpk3x" +:+ "/tikz.png");
          EvCopy ("/tmp/tmpk3x" +:+ "/tikz.png") "out.png";
          EvRmtree "/tmp/tmpk3x";
          EvPublish "ThaplMagic.Thapl" [("image/png", "PNG")] None].
Proof.
  apply (saved_copy_is_image Scenario.utf8 Scenario.locale
           Scenario.latex_draws Scenario.one_svg Scenario.show_size
           (Scenario.with_save "out.png")
           (Scenario.locals_for (Scenario.with_save "out.png") "p")
           "\draw" "/tmp/tmpk3x" "TEX" "out.png" Scenario.prepared
           Scenario.written (Scenario.after_latex Scenario.latex_draws)
           _ None "PNG");
    by vm_compute.
Defined.

(** * Further properties of the module *)

(** ** The document is never completed *)

Section NoDocument.
Import NsFacts.

Lemma tex_preamble_ok o l code plot_dir :
  ∃ tex,
    tex_preamble (namespace_of o) l code plot_dir
    = Ok (tex,
          locals_of l code plot_dir
            (if is_raster (v_plot_format l) then "density=300," else "")
            (if o_circuitikz o then "circuitikz" else "tikzpicture")
            (if o_circuitikz o then "circuitikz" else "tikz")).
Proof.
  eexists. unfold tex_preamble, getattr.
  rewrite namespace_circuitikz, namespace_preamble.
  cbv beta iota zeta delta [rbind value_truthy].
  rewrite format_tikz.
  cbv beta iota zeta delta [rbind].
  rewrite append_formatted_package.
  cbv beta iota zeta delta [rbind].
  rewrite append_formatted_library.
  cbv beta iota zeta delta [rbind].
  rewrite format_preamble.
  cbv beta iota zeta delta [rbind].
  reflexivity.
Qed.

Lemma format_begin l code plot_dir add_params tikz_env tikz_package :
  format begin_template
    (Mapping (locals_of l code plot_dir add_params tikz_env tikz_package))
  = Ok begin_template.
Proof. reflexivity. Qed.

Lemma format_bash l code plot_dir add_params tikz_env tikz_package :
  format bash_template
    (Mapping (locals_of l code plot_dir add_params tikz_env tikz_package))
  = Raise (ValueError "unsupported format character p").
Proof. reflexivity. Qed.

(** X3.  Whatever the options and whatever [python_path] is bound to, putting
    the document together stops at the shell-escape block: its template
    holds the directive [%(python_path) p], a blank flag followed by the
    conversion character [p], which [%] rejects with [ValueError]. *)
Theorem document_never_assembled o l code plot_dir :
  assemble_tex (namespace_of o) l code plot_dir
  = Raise (ValueError "unsupported format character p").
Proof.
  unfold assemble_tex.
  destruct (tex_preamble_ok o l code plot_dir) as [tex ->].
  cbv beta iota zeta delta [rbind].
  rewrite format_begin.
  cbv beta iota zeta delta [rbind].
  by rewrite format_bash.
Qed.

End NoDocument.

(** ** [_fix_gnuplot_svg_size] at its edges *)

Section SvgEdges.

Variable parseString : string → Res Node.
Variable toxml : Node → string.

(** X15.  Without an explicit size the function never returns: the entries of
    [viewBox] from the third on are unpacked into width and height, which
    raises [ValueError] unless there are exactly two of them, and these
    being strings, [%d] raises [TypeError] when there are. *)
Theorem svg_size_from_viewbox_raises image doc svg :
  parseString image = Ok doc →
  getElementsByTagName "svg" doc = [svg] →
  (length (split " " (getAttribute svg "viewBox")) = 4%nat
   ∧ _fix_gnuplot_svg_size parseString toxml image None
     = Raise (TypeError "%d format: a real number is required"))
  ∨ (length (split " " (getAttribute svg "viewBox")) ≠ 4%nat
     ∧ ∃ m, _fix_gnuplot_svg_size parseString toxml image None
            = Raise (ValueError m)).
Proof.
  intros Hp Hs. unfold _fix_gnuplot_svg_size. rewrite Hp. simpl. rewrite Hs.
  simpl.
  destruct (split " " (getAttribute svg "viewBox")) as [|a [|b [|c [|d [|e r]]]]];
    simpl.
  - right. split; [done | by eexists].
  - right. split; [done | by eexists].
  - right. split; [done | by eexists].
  - right. split; [done | by eexists].
  - left. by split.
  - right. split; [done | by eexists].
Qed.

(** X16.  The image must hold exactly one [svg] element: with none or with
    several, the unpacking of the element list raises [ValueError],
    whatever the size. *)
Theorem svg_size_needs_one_element image doc size :
  parseString image = Ok doc →
  length (getElementsByTagName "svg" doc) ≠ 1%nat →
  ∃ m, _fix_gnuplot_svg_size parseString toxml image size
       = Raise (ValueError m).
Proof.
  intros Hp Hl. unfold _fix_gnuplot_svg_size. rewrite Hp. simpl.
  destruct (getElementsByTagName "svg" doc) as [|a [|b r]]; simpl;
    [by eexists | done | by eexists].
Qed.

End SvgEdges.

(** Witness of [svg_size_from_viewbox_raises]: a [viewBox] of four
    entries. *)
Lemma svg_size_from_viewbox_raises_witness :
  (length (split " " (getAttribute
                        (Element "svg" [("viewBox", "0 0 10 20")] [])
                        "viewBox")) = 4%nat
   ∧ _fix_gnuplot_svg_size Scenario.one_svg Scenario.show_size "<svg/>" None
     = Raise (TypeError "%d format: a real number is required"))
  ∨ (length (split " " (getAttribute
                          (Element "svg" [("viewBox", "0 0 10 20")] [])
                          "viewBox")) ≠ 4%nat
     ∧ ∃ m, _fix_gnuplot_svg_size Scenario.one_svg Scenario.show_size
              "<svg/>" None
            = Raise (ValueError m)).
Proof.
  apply (svg_size_from_viewbox_raises Scenario.one_svg Scenario.show_size
           "<svg/>" (Element "svg" [("viewBox", "0 0 10 20")] []));
    reflexivity.
Defined.

(** Witness of [svg_size_needs_one_element]: a document with an [svg]
    element inside another. *)
Lemma svg_size_needs_one_element_witness :
  ∃ m, _fix_gnuplot_svg_size
         (λ _, Ok (Element "svg" [] [Element "svg" [] []]))
         Scenario.show_size "<svg><svg/></svg>" (Some (320, 200))
       = Raise (ValueError m).
Proof.
  apply (svg_size_needs_one_element
           (λ _, Ok (Element "svg" [] [Element "svg" [] []]))
           Scenario.show_size "<svg><svg/></svg>"
           (Element "svg" [] [Element "svg" [] []]) (Some (320, 200)));
    [reflexivity | by vm_compute].
Defined.

(** ** The working directory comes back *)

Section Cwd.
Import Inv PathFacts.

Variable encode_text : string → string → Res string.
Variable decode_text : string → Res string.
Variable shell : string → gmap string string → string → FS → Outcome.

Lemma chdir_ok_cwd d w w' :
  chdir d w = (Ok tt, w') → cwd w' = resolve (cwd w) d.
Proof.
  unfold chdir, bind, emit, get_world, raise. simpl.
  case_decide; [| done]. by intros [= <-].
Qed.

Lemma chdir_back d w w' :
  is_abs d = true → chdir d w = (Ok tt, w') → cwd w' = d.
Proof. intros Ha H%chdir_ok_cwd. by rewrite resolve_abs in H. Qed.

(** X7.  When [_run_latex] returns, the working directory is the absolute one
    it was called in. *)
Theorem run_latex_restores_cwd code enc dir w r w' :
  is_abs (cwd w) = true →
  _run_latex encode_text decode_text shell code enc dir w = (Ok r, w') →
  cwd w' = cwd w.
Proof.
  intros Ha H. unfold _run_latex in H.
  apply bind_inv_ok in H as ([] & w1 & Hw & H).
  pose proof (write_text_cwd encode_text (dir +:+ sep +:+ "magic.tex")
                enc code w) as Hc1.
  rewrite Hw in Hc1. simpl in Hc1.
  apply bind_inv_ok in H as (cur & w1' & [-> ->]%getcwd_ok & H).
  apply bind_inv_ok in H as ([] & w2 & _ & H).
  apply bind_inv_ok in H as (w2' & w2'' & _ & H).
  apply bind_inv_ok in H as (ret_log & w3 & _ & H).
  apply bind_inv_ok in H as (lg & w4 & _ & H).
  apply bind_inv_ok in H as ([] & w5 & Hback & [= _ <-]).
  rewrite Hc1 in Hback. by apply chdir_back in Hback.
Qed.

(** X11.  When [_convert_pdf_to_svg] returns, the working directory is the
    absolute one it was called in. *)
Theorem convert_pdf_to_svg_restores_cwd dir w w' :
  is_abs (cwd w) = true →
  _convert_pdf_to_svg shell dir w = (Ok tt, w') →
  cwd w' = cwd w.
Proof.
  intros Ha H. unfold _convert_pdf_to_svg in H.
  apply bind_inv_ok in H as (cur & w1 & [-> ->]%getcwd_ok & H).
  apply bind_inv_ok in H as ([] & w2 & _ & H).
  apply bind_inv_ok in H as ([] & w3 & _ & Hback).
  by apply chdir_back in Hback.
Qed.

(** X14.  When [_convert_png_to_jpg] returns, the working directory is the
    absolute one it was called in. *)
Theorem convert_png_to_jpg_restores_cwd dir imagemagick_path w w' :
  is_abs (cwd w) = true →
  _convert_png_to_jpg shell dir imagemagick_path w = (Ok tt, w') →
  cwd w' = cwd w.
Proof.
  intros Ha H. unfold _convert_png_to_jpg in H.
  apply bind_inv_ok in H as (cur & w1 & [-> ->]%getcwd_ok & H).
  apply bind_inv_ok in H as ([] & w2 & _ & H).
  apply bind_inv_ok in H as ([] & w3 & _ & Hback).
  by apply chdir_back in Hback.
Qed.

End Cwd.

(** Witnesses: the runs in the concrete setting, from [/home]. *)
Lemma run_latex_restores_cwd_witness :
  cwd (_run_latex Scenario.utf8 Scenario.locale Scenario.latex_fails "TEX"
         "utf-8" "/tmp/tmpk3x" Scenario.prepared).2
  = cwd Scenario.prepared.
Proof.
  apply (run_latex_restores_cwd Scenario.utf8 Scenario.locale
           Scenario.latex_fails "TEX" "utf-8" "/tmp/tmpk3x"
           Scenario.prepared (Some "! Undefined control"));
    by vm_compute.
Defined.

Lemma convert_pdf_to_svg_restores_cwd_witness :
  cwd (_convert_pdf_to_svg Scenario.latex_fails "/tmp/tmpk3x"
         Scenario.prepared).2
  = cwd Scenario.prepared.
Proof.
  apply (convert_pdf_to_svg_restores_cwd Scenario.latex_fails "/tmp/tmpk3x"
           Scenario.prepared); by vm_compute.
Defined.

Lemma convert_png_to_jpg_restores_cwd_witness :
  cwd (_convert_png_to_jpg Scenario.latex_fails "/tmp/tmpk3x" "convert"
         Scenario.prepared).2
  = cwd Scenario.prepared.
Proof.
  apply (convert_png_to_jpg_restores_cwd Scenario.latex_fails "/tmp/tmpk3x"
           "convert" Scenario.prepared); by vm_compute.
Defined.

(** ** The converters *)

Section Converters.
Import Inv Frame MFacts.

Variable shell : string → gmap string string → string → FS → Outcome.

Lemma chdir_raises d w e w' :
  chdir d w = (Raise e, w') →
  e = OSError ("No such file or directory: " +:+ d).
Proof.
  unfold chdir, bind, emit, get_world, raise. simpl.
  case_decide; [done |]. by intros [= <-].
Qed.

Lemma call_raises cmd env w e w' :
  call shell cmd env w = (Raise e, w') → is_OSError e = true.
Proof.
  unfold call, bind, emit, get_world, raise, modify_fs, ret. simpl.
  destruct (shell _ _ _ _); [done |]. by intros [= <-].
Qed.

(** What the body of a converter's [try] block can raise is caught. *)
Lemma report_raises cmd what w e w' :
  bind (call shell cmd None)
    (λ retcode : Z,
       if negb (retcode =? 0)
       then print Stderr (what +:+ pretty (- retcode))
       else ret tt) w = (Raise e, w') →
  is_OSError e = true.
Proof.
  intros [(rc & w1 & _ & H) | (e' & H & [= ->])]%bind_inv.
  - by destruct (negb _).
  - eapply call_raises, H.
Qed.

Lemma format_convert_command path :
  format "%s magic.png -quality 100 -background white -flatten magic.jpg"
    (Tuple [VStr path])
  = Ok (path +:+ " magic.png -quality 100 -background white -flatten magic.jpg").
Proof. reflexivity. Qed.

(** X10.  Whatever [pdf2svg] does (exit with any code, or fail to start),
    [_convert_pdf_to_svg] does not raise for it: an exception that leaves
    the method is the [OSError] of asking for the working directory, or
    of a directory change, into [dir] or back into the caller's
    directory. *)
Theorem convert_pdf_to_svg_absorbs_failure dir w e w' :
  _convert_pdf_to_svg shell dir w = (Raise e, w') →
  e = OSError "No such file or directory"
  ∨ e = OSError ("No such file or directory: " +:+ dir)
  ∨ e = OSError ("No such file or directory: " +:+ cwd w).
Proof.
  unfold _convert_pdf_to_svg. intros H.
  apply bind_inv in H as [(cur & w1 & [-> ->]%getcwd_ok & H)
                         | (e' & [-> ->]%getcwd_raises & [= ->])];
    [| by left].
  right.
  apply bind_inv in H as [([] & w2 & _ & H) | (e' & H & [= ->])];
    [| left; eapply chdir_raises, H].
  apply bind_inv in H as [([] & w3 & _ & H) | (e' & H & [= ->])];
    [right; eapply chdir_raises, H |].
  apply try_inv in H as [(? & _ & [=]) | [(e1 & w4 & _ & _ & [=])
                                         | (e1 & H & Hc & [= ->])]].
  apply report_raises in H. congruence.
Qed.

(** X13.  Whatever ImageMagick does (exit with any code, or fail to
    start), [_convert_png_to_jpg] does not raise for it: an exception
    that leaves the method is the [OSError] of asking for the working
    directory, or of a directory change, into [dir] or back into the
    caller's directory. *)
Theorem convert_png_to_jpg_absorbs_failure dir imagemagick_path w e w' :
  _convert_png_to_jpg shell dir imagemagick_path w = (Raise e, w') →
  e = OSError "No such file or directory"
  ∨ e = OSError ("No such file or directory: " +:+ dir)
  ∨ e = OSError ("No such file or directory: " +:+ cwd w).
Proof.
  unfold _convert_png_to_jpg. rewrite format_convert_command. intros H.
  apply bind_inv in H as [(cur & w1 & [-> ->]%getcwd_ok & H)
                         | (e' & [-> ->]%getcwd_raises & [= ->])];
    [| by left].
  right.
  apply bind_inv in H as [([] & w2 & _ & H) | (e' & H & [= ->])];
    [| left; eapply chdir_raises, H].
  apply bind_inv in H as [([] & w3 & _ & H) | (e' & H & [= ->])];
    [right; eapply chdir_raises, H |].
  apply try_inv in H as [(? & _ & [=]) | [(e1 & w4 & _ & _ & [=])
                                         | (e1 & H & Hc & [= ->])]].
  change (bind (lift (Ok _)) ?k w2) with (k (imagemagick_path +:+ " magic.png -quality 100 -background white -flatten magic.jpg") w2) in H.
  apply report_raises in H. congruence.
Qed.

(** The events of a conversion to JPEG: changes of directory, lines on
    standard error, and one command line, [imagemagick_path] followed by
    the fixed arguments. *)
Definition jpg_conversion_event (imagemagick_path : string) (e : Event)
  : Prop :=
  match e with
  | EvChdir _ | EvPrint Stderr _ => True
  | EvCall cmd _ =>
      cmd = imagemagick_path
            +:+ " magic.png -quality 100 -background white -flatten magic.jpg"
  | _ => False
  end.

(** X12.  [_convert_png_to_jpg] runs no command but the value of the
    [imagemagick] option with the fixed arguments appended, unquoted; it
    opens no file itself, publishes nothing, removes nothing, and leaves
    the process environment as it was. *)
Theorem convert_png_to_jpg_command dir imagemagick_path w :
  extends (jpg_conversion_event imagemagick_path) w
    (_convert_png_to_jpg shell dir imagemagick_path w).2.
Proof.
  revert w. change (keeps (jpg_conversion_event imagemagick_path)
                      (_convert_png_to_jpg shell dir imagemagick_path)).
  unfold _convert_png_to_jpg. rewrite format_convert_command.
  apply keeps_bind; [apply keeps_getcwd | intros cur].
  apply keeps_bind; [by apply keeps_chdir | intros _].
  apply keeps_bind; [| intros _; by apply keeps_chdir].
  apply keeps_try; [| intros e; by apply keeps_print].
  change (keeps (jpg_conversion_event imagemagick_path)
            (bind (call shell
                     (imagemagick_path
                      +:+ " magic.png -quality 100 -background white -flatten magic.jpg")
                     None)
               (λ retcode : Z,
                  if negb (retcode =? 0)
                  then print Stderr
                         ("convert terminated with signal "
                          +:+ pretty (- retcode))
                  else ret tt))).
  apply keeps_bind; [by apply keeps_call | intros rc].
  destruct (negb _); [by apply keeps_print | apply keeps_ret].
Qed.

End Converters.

(** Witnesses: a directory that does not exist. *)
Lemma convert_pdf_to_svg_absorbs_failure_witness :
  OSError "No such file or directory: /nowhere"
  = OSError "No such file or directory"
  ∨ OSError "No such file or directory: /nowhere"
    = OSError ("No such file or directory: " +:+ "/nowhere")
  ∨ OSError "No such file or directory: /nowhere"
    = OSError ("No such file or directory: " +:+ cwd Scenario.home).
Proof.
  apply (convert_pdf_to_svg_absorbs_failure Scenario.succeeds_idle
           "/nowhere" Scenario.home _
           (log_event (EvChdir "/nowhere") Scenario.home)).
  by vm_compute.
Defined.

Lemma convert_png_to_jpg_absorbs_failure_witness :
  OSError "No such file or directory: /nowhere"
  = OSError "No such file or directory"
  ∨ OSError "No such file or directory: /nowhere"
    = OSError ("No such file or directory: " +:+ "/nowhere")
  ∨ OSError "No such file or directory: /nowhere"
    = OSError ("No such file or directory: " +:+ cwd Scenario.home).
Proof.
  apply (convert_png_to_jpg_absorbs_failure Scenario.succeeds_idle
           "/nowhere" "convert" Scenario.home _
           (log_event (EvChdir "/nowhere") Scenario.home)).
  by vm_compute.
Defined.

(** ** Writing the source file *)

Section WriteThapl.
Import Inv.

Variable encode_text : string → string → Res string.

(** X4.  Once [_write_thapl] has returned, [magic.thapl] in [dir] holds the
    code in the requested encoding: reading the file back gives exactly
    those bytes.  No other file has changed, and neither have the
    directories or the working directory. *)
Theorem write_thapl_then_read code enc dir w w' :
  _write_thapl encode_text code enc dir w = (Ok tt, w') →
  ∃ bytes,
    encode_text enc code = Ok bytes
    ∧ (read_bytes (dir +:+ "/magic.thapl") w').1 = Ok bytes
    ∧ (∀ q, q ≠ resolve (cwd w) (dir +:+ "/magic.thapl") →
            files (fs w') !! q = files (fs w) !! q)
    ∧ dirs (fs w') = dirs (fs w)
    ∧ cwd w' = cwd w.
Proof.
  unfold _write_thapl, write_text, read_bytes, bind, emit, get_world, raise,
    modify_fs, lift, ret. simpl.
  case_decide; [done |]. case_decide; [| done]. simpl.
  destruct (encode_text enc code) as [bytes|e]; [| done].
  intros [= <-]. exists bytes. simpl.
  split; [done |]. split; [by rewrite lookup_insert_eq |].
  split; [| done]. intros q Hq. by rewrite !lookup_insert_ne.
Qed.

(** X5.  When [_write_thapl] raises, either the file could not be opened (the
    name is a directory, or [dir] does not exist) and the file system is
    as before, or the code could not be encoded, and then an empty
    [magic.thapl] is left behind. *)
Theorem write_thapl_failure code enc dir w e w' :
  _write_thapl encode_text code enc dir w = (Raise e, w') →
  (is_OSError e = true ∧ fs w' = fs w)
  ∨ (encode_text enc code = Raise e
     ∧ files (fs w') !! resolve (cwd w) (dir +:+ "/magic.thapl") = Some "").
Proof.
  unfold _write_thapl, write_text, bind, emit, get_world, raise,
    modify_fs, lift, ret. simpl.
  case_decide; [intros [= <- <-]; by left |].
  case_decide; [| intros [= <- <-]; by left]. simpl.
  destruct (encode_text enc code) as [bytes|e']; [done |].
  intros [= <- <-]. right. split; [done |]. simpl.
  by rewrite lookup_insert_eq.
Qed.

End WriteThapl.

Lemma write_thapl_then_read_witness :
  ∃ bytes,
    Scenario.utf8 "utf-8" "draw" = Ok bytes
    ∧ (read_bytes ("/tmp/tmpk3x" +:+ "/magic.thapl")
         (_write_thapl Scenario.utf8 "draw" "utf-8" "/tmp/tmpk3x"
            Scenario.prepared).2).1 = Ok bytes
    ∧ (∀ q, q ≠ resolve (cwd Scenario.prepared)
                  ("/tmp/tmpk3x" +:+ "/magic.thapl") →
            files (fs (_write_thapl Scenario.utf8 "draw" "utf-8"
                         "/tmp/tmpk3x" Scenario.prepared).2) !! q
            = files (fs Scenario.prepared) !! q)
    ∧ dirs (fs (_write_thapl Scenario.utf8 "draw" "utf-8" "/tmp/tmpk3x"
                  Scenario.prepared).2)
      = dirs (fs Scenario.prepared)
    ∧ cwd (_write_thapl Scenario.utf8 "draw" "utf-8" "/tmp/tmpk3x"
             Scenario.prepared).2
      = cwd Scenario.prepared.
Proof.
  apply (write_thapl_then_read Scenario.utf8 "draw" "utf-8" "/tmp/tmpk3x"
           Scenario.prepared). reflexivity.
Defined.

Lemma write_thapl_failure_witness :
  (is_OSError (OSError "No such file or directory: /nowhere/magic.thapl")
   = true
   ∧ fs (log_event (EvOpen "w" "/nowhere/magic.thapl") Scenario.home)
     = fs Scenario.home)
  ∨ (Scenario.utf8 "utf-8" "draw"
     = Raise (OSError "No such file or directory: /nowhere/magic.thapl")
     ∧ files (fs (log_event (EvOpen "w" "/nowhere/magic.thapl")
                    Scenario.home))
         !! resolve (cwd Scenario.home) ("/nowhere" +:+ "/magic.thapl")
       = Some "").
Proof.
  apply (write_thapl_failure Scenario.utf8 "draw" "utf-8" "/nowhere"
           Scenario.home). by vm_compute.
Defined.

(** ** What [_run_latex] hands back *)

Section RunLatexOutcome.
Import Inv Frame.

Variable encode_text : string → string → Res string.
Variable decode_text : string → Res string.
Variable shell : string → gmap string string → string → FS → Outcome.

Lemma chdir_ok_fs d w w' : chdir d w = (Ok tt, w') → fs w' = fs w.
Proof.
  unfold chdir, bind, emit, get_world, raise. simpl.
  case_decide; [| done]. by intros [= <-].
Qed.

(** The outcome of the [try] block around the engine. *)
Lemma engine_step env w (ret_log : bool) w' :
  try_except
    (bind (call shell "xelatex --shell-escape magic.tex" (Some env))
       (λ retcode : Z,
          if negb (retcode =? 0)
          then bind (print Stderr ("LaTeX terminated with signal "
                                   +:+ pretty (- retcode)))
                 (λ _, ret true)
          else ret false))
    is_OSError
    (λ e, bind (print Stderr ("LaTeX execution failed: "
                              +:+ match e with OSError m => m | _ => "" end))
            (λ _, ret true)) w = (Ok ret_log, w') →
  cwd w' = cwd w
  ∧ (if ret_log
     then failed (shell "xelatex --shell-escape magic.tex" env (cwd w) (fs w))
     else ∃ f, shell "xelatex --shell-escape magic.tex" env (cwd w) (fs w)
               = Exited 0 f ∧ fs w' = f).
Proof.
  unfold try_except, call, bind, get_world, emit, modify_fs, ret, raise, print.
  simpl. destruct (shell _ _ _ _) as [rc after|msg]; simpl.
  - destruct (rc =? 0) eqn:Hrc; simpl; intros [= <- <-]; simpl.
    + apply Z.eqb_eq in Hrc as ->. eauto.
    + split; [done |]. by apply Z.eqb_neq.
  - by intros [= <- <-].
Qed.

Lemma read_text_ok p w log w' :
  read_text decode_text p w = (Ok log, w') →
  fs w' = fs w
  ∧ ∃ bytes, files (fs w) !! resolve (cwd w) p = Some bytes
             ∧ decode_text bytes = Ok log.
Proof.
  unfold read_text, bind, emit, get_world, raise, lift. simpl.
  destruct (files (fs w) !! _) as [bytes|]; [| done].
  destruct (decode_text bytes) as [t|e] eqn:Hd; [| done].
  intros [= <- <-]. eauto.
Qed.

Lemma read_text_raises p w e w' :
  read_text decode_text p w = (Raise e, w') →
  fs w' = fs w ∧ cwd w' = cwd w
  ∧ ((files (fs w) !! resolve (cwd w) p = None ∧ is_OSError e = true)
     ∨ ∃ bytes, files (fs w) !! resolve (cwd w) p = Some bytes
                ∧ decode_text bytes = Raise e).
Proof.
  unfold read_text, bind, emit, get_world, raise, lift. simpl.
  destruct (files (fs w) !! _) as [bytes|].
  - destruct (decode_text bytes) as [t|e'] eqn:Hd; [done |].
    intros [= <- <-]. eauto 10.
  - intros [= <- <-]. eauto 10.
Qed.

(** X6.  The log [_run_latex] returns is the content of [thapl.log] in [dir],
    decoded, and it is returned only when the engine failed (could not be
    started, or exited with a code other than 0).  [None] comes back when
    the engine exited with 0, whatever is in [thapl.log], or when the
    engine failed and [thapl.log] is missing or cannot be read. *)
Theorem run_latex_result code enc dir w r w' :
  _run_latex encode_text decode_text shell code enc dir w = (Ok r, w') →
  let logfile := path_join (resolve (cwd w) dir) "thapl.log" in
  ∃ f,
    let out := shell "xelatex --shell-escape magic.tex"
                 (latex_env (cwd w) (environ w)) (resolve (cwd w) dir) f in
    match r with
    | Some log =>
        failed out
        ∧ ∃ bytes, files (fs w') !! logfile = Some bytes
                   ∧ decode_text bytes = Ok log
    | None =>
        (∃ f', out = Exited 0 f')
        ∨ (failed out
           ∧ (files (fs w') !! logfile = None
              ∨ ∃ bytes m, files (fs w') !! logfile = Some bytes
                           ∧ decode_text bytes = Raise (OSError m)))
    end.
Proof.
  intros H logfile. unfold _run_latex in H.
  apply bind_inv_ok in H as ([] & w1 & Hw & H).
  pose proof (write_text_cwd encode_text (dir +:+ sep +:+ "magic.tex")
                enc code w) as Hc1.
  pose proof (keeps_write_text encode_text (λ _, True)
                (dir +:+ sep +:+ "magic.tex") enc code I w) as [He1 _].
  rewrite Hw in Hc1, He1. simpl in Hc1, He1.
  apply bind_inv_ok in H as (cur & w1' & [-> ->]%getcwd_ok & H).
  apply bind_inv_ok in H as ([] & w2 & Hcd & H).
  pose proof (keeps_chdir (λ _, True) dir I w1) as [He2 _].
  rewrite Hcd in He2. simpl in He2.
  apply chdir_ok_cwd in Hcd as Hc2.
  apply bind_inv_ok in H as (w2' & w2'' & [= <- <-] & H).
  apply bind_inv_ok in H as (ret_log & w3 & Htry & H).
  apply engine_step in Htry as [Hc3 Hout].
  rewrite He2, He1, Hc1, Hc2, Hc1 in Hout.
  apply bind_inv_ok in H as (lg & w4 & Hlog & H).
  apply bind_inv_ok in H as ([] & w5 & Hback%chdir_ok_fs & [= <- <-]).
  exists (fs w2). simpl. rewrite Hback.
  assert (resolve (cwd w3) "thapl.log" = logfile) as Hp.
  { unfold logfile. by rewrite Hc3, Hc2, Hc1. }
  destruct ret_log.
  - apply try_inv in Hlog as [(a & Hb & [= <-])
                             | [(e & wx & Hb & Hc & Hh)
                               | (e & _ & _ & [=])]].
    + apply bind_inv_ok in Hb as (log & w3' & Hr & [= <- <-]).
      apply read_text_ok in Hr as (-> & bytes & Hf & Hd).
      rewrite Hp in Hf. eauto.
    + injection Hh as <- <-. simpl.
      apply bind_inv in Hb as [(? & ? & _ & [=]) | (e' & Hr & [= <-])].
      apply read_text_raises in Hr as (-> & _ & Hr). rewrite Hp in Hr.
      right. split; [done |].
      destruct Hr as [[Hr _] | (bytes & Hf & Hd)]; [by left | right].
      destruct e; try done. eauto.
  - injection Hlog as <- <-. left.
    destruct Hout as (f' & -> & _). eauto.
Qed.

Lemma write_text_raises p enc text w e w' :
  write_text encode_text p enc text w = (Raise e, w') →
  encode_text enc text = Raise e ∨ is_OSError e = true.
Proof.
  unfold write_text, bind, emit, get_world, raise, modify_fs, lift. simpl.
  case_decide; [intros [= <- <-]; by right |].
  case_decide; [| intros [= <- <-]; by right]. simpl.
  destruct (encode_text enc text) as [bytes|e']; [done |].
  intros [= <- <-]. by left.
Qed.

Lemma chdir_raises_cwd d w e w' :
  chdir d w = (Raise e, w') → cwd w' = cwd w.
Proof.
  unfold chdir, bind, emit, get_world, raise. simpl.
  case_decide; [done |]. by intros [= _ <-].
Qed.

Lemma engine_never_raises env w e w' :
  try_except
    (bind (call shell "xelatex --shell-escape magic.tex" (Some env))
       (λ retcode : Z,
          if negb (retcode =? 0)
          then bind (print Stderr ("LaTeX terminated with signal "
                                   +:+ pretty (- retcode)))
                 (λ _, ret true)
          else ret false))
    is_OSError
    (λ e, bind (print Stderr ("LaTeX execution failed: "
                              +:+ match e with OSError m => m | _ => "" end))
            (λ _, ret true)) w = (Raise e, w') →
  False.
Proof.
  unfold try_except, call, bind, get_world, emit, modify_fs, ret, raise, print.
  simpl. destruct (shell _ _ _ _) as [rc after|msg]; simpl; [| done].
  by destruct (rc =? 0).
Qed.

Lemma read_text_cwd p w : cwd (read_text decode_text p w).2 = cwd w.
Proof.
  unfold read_text, bind, emit, get_world, raise, lift. simpl.
  destruct (files (fs w) !! _) as [bytes|]; [| done].
  by destruct (decode_text bytes).
Qed.

(** X8.  An exception that leaves [_run_latex] after it has entered [dir]
    leaves the process there: the working directory is restored only on
    normal return.  That is the case when decoding [thapl.log] fails, and
    when the caller's directory cannot be entered again.  An exception
    from writing [magic.tex] or from entering [dir] leaves the working
    directory as it was. *)
Theorem run_latex_raises code enc dir w e w' :
  _run_latex encode_text decode_text shell code enc dir w = (Raise e, w') →
  (cwd w' = cwd w
   ∧ (encode_text enc code = Raise e ∨ is_OSError e = true))
  ∨ (cwd w' = resolve (cwd w) dir
     ∧ ((∃ bytes, decode_text bytes = Raise e ∧ is_OSError e = false)
        ∨ e = OSError ("No such file or directory: " +:+ cwd w))).
Proof.
  unfold _run_latex. intros H.
  pose proof (write_text_cwd encode_text (dir +:+ sep +:+ "magic.tex")
                enc code w) as Hc1.
  apply bind_inv in H as [([] & w1 & Hw & H) | (e' & Hw & [= ->])].
  2:{ left. rewrite Hw in Hc1. split; [done |].
      by apply write_text_raises in Hw. }
  rewrite Hw in Hc1. simpl in Hc1.
  apply bind_inv in H as [(cur & w1' & [-> ->]%getcwd_ok & H)
                         | (e' & [-> ->]%getcwd_raises & [= ->])];
    [| left; split; [done | by right]].
  apply bind_inv in H as [([] & w2 & Hcd & H) | (e' & Hcd & [= ->])].
  2:{ left. apply chdir_raises_cwd in Hcd as Hc.
      apply chdir_raises in Hcd as ->. split; [congruence | by right]. }
  apply chdir_ok_cwd in Hcd as Hc2.
  apply bind_inv in H as [(w2' & w2'' & [= <- <-] & H) | (? & [=] & _)].
  apply bind_inv in H as [(ret_log & w3 & Htry & H) | (e' & Htry & _)].
  2:{ by apply engine_never_raises in Htry. }
  apply engine_step in Htry as [Hc3 _].
  right. rewrite <- Hc1, <- Hc2, <- Hc3.
  apply bind_inv in H as [(lg & w4 & Hlog & H) | (e' & Hlog & [= ->])].
  - apply bind_inv in H as [([] & w5 & _ & [=]) | (e' & Hback & [= ->])].
    apply chdir_raises_cwd in Hback as Hc5.
    apply chdir_raises in Hback as ->. rewrite Hc1. split; [| by right].
    rewrite Hc5. destruct ret_log; [| by injection Hlog as _ <-].
    apply try_inv in Hlog as [(a & Hb & [= <-])
                             | [(e & wx & Hb & Hc & [= _ <-])
                               | (e & _ & _ & [=])]].
    + apply bind_inv_ok in Hb as (log & w3' & Hr & [= _ <-]).
      pose proof (read_text_cwd "thapl.log" w3) as Hc4.
      by rewrite Hr in Hc4.
    + simpl. apply bind_inv in Hb as [(? & ? & _ & [=]) | (e' & Hr & _)].
      pose proof (read_text_cwd "thapl.log" w3) as Hc4.
      by rewrite Hr in Hc4.
  - destruct ret_log; [| done].
    apply try_inv in Hlog as [(a & _ & [=])
                             | [(e1 & wx & _ & _ & [=])
                               | (e1 & Hb & Hc & [= ->])]].
    apply bind_inv in Hb as [(? & ? & _ & [=]) | (e' & Hr & [= ->])].
    apply read_text_raises in Hr as (_ & Hc4 & Hr).
    split; [done |]. left.
    destruct Hr as [[_ Ho] | (bytes & _ & Hd)]; [congruence | eauto].
Qed.

End RunLatexOutcome.

Lemma run_latex_result_witness :
  let w' := (_run_latex Scenario.utf8 Scenario.locale Scenario.latex_fails
               "TEX" "utf-8" "/tmp/tmpk3x" Scenario.prepared).2 in
  let logfile :=
    path_join (resolve (cwd Scenario.prepared) "/tmp/tmpk3x") "thapl.log" in
  ∃ f,
    failed (Scenario.latex_fails "xelatex --shell-escape magic.tex"
              (latex_env (cwd Scenario.prepared) (environ Scenario.prepared))
              (resolve (cwd Scenario.prepared) "/tmp/tmpk3x") f)
    ∧ ∃ bytes, files (fs w') !! logfile = Some bytes
               ∧ Scenario.locale bytes = Ok "! Undefined control".
Proof.
  intros w'.
  apply (run_latex_result Scenario.utf8 Scenario.locale Scenario.latex_fails
           "TEX" "utf-8" "/tmp/tmpk3x" Scenario.prepared
           (Some "! Undefined control") w').
  by vm_compute.
Defined.

Lemma run_latex_raises_witness :
  let undecodable : string → Res string :=
    λ _, Raise (ValueError "invalid start byte") in
  let w' := (_run_latex Scenario.utf8 undecodable Scenario.latex_fails
               "TEX" "utf-8" "/tmp/tmpk3x" Scenario.prepared).2 in
  (cwd w' = cwd Scenario.prepared
   ∧ (Scenario.utf8 "utf-8" "TEX" = Raise (ValueError "invalid start byte")
      ∨ is_OSError (ValueError "invalid start byte") = true))
  ∨ (cwd w' = resolve (cwd Scenario.prepared) "/tmp/tmpk3x"
     ∧ ((∃ bytes, undecodable bytes = Raise (ValueError "invalid start byte")
                  ∧ is_OSError (ValueError "invalid start byte") = false)
        ∨ ValueError "invalid start byte"
          = OSError ("No such file or directory: " +:+ cwd Scenario.prepared))).
Proof.
  intros undecodable w'.
  apply (run_latex_raises Scenario.utf8 undecodable Scenario.latex_fails
           "TEX" "utf-8" "/tmp/tmpk3x" Scenario.prepared
           (ValueError "invalid start byte") w').
  by vm_compute.
Defined.

(** ** From the conversion to the publication *)

Section PublishImage.
Import PathFacts NsFacts MFacts Inv.

Variable shell : string → gmap string string → string → FS → Outcome.
Variable parseString : string → Res Node.
Variable toxml : Node → string.

Lemma rmtree_ok d w w' :
  is_abs d = true → rmtree d w = (Ok tt, w') →
  fs w' = remove_tree d (fs w).
Proof.
  intros Ha. unfold rmtree, bind, emit, get_world, raise, modify_fs. simpl.
  rewrite resolve_abs by done. case_decide; [| done]. by intros [= <-].
Qed.

Lemma publish_loop_fs (svg : bool) display_data w :
  fs (for_each display_data
        (λ '(tag, disp_d),
           if svg then publish tag disp_d (Some [("isolated", "true")])
           else publish tag disp_d None) w).2 = fs w.
Proof.
  revert w. induction display_data as [|[tag d] dd IH]; intros w; [done |].
  simpl. unfold bind.
  destruct svg; unfold publish, emit; simpl; by rewrite IH.
Qed.

Lemma remove_tree_gone d f :
  (d ∉ dirs (remove_tree d f))
  ∧ ∀ p, under d p = true →
         files (remove_tree d f) !! p = None ∧ (p ∉ dirs (remove_tree d f)).
Proof.
  split.
  - simpl. rewrite elem_of_filter. by intros [[? _] _].
  - intros p Hp. split; simpl.
    + apply map_lookup_filter_None. right. intros v _. simpl. congruence.
    + rewrite elem_of_filter. intros [[_ ?] _]. congruence.
Qed.

(** X17.  Whenever the block from the conversion on returns normally, whatever
    the format, the options and the commands do, the temporary directory
    is gone, with every file and directory below it. *)
Theorem publish_image_removes_directory args l plot_dir w w' :
  is_abs plot_dir = true →
  publish_image shell parseString toxml args l plot_dir w = (Ok tt, w') →
  (plot_dir ∉ dirs (fs w'))
  ∧ ∀ p, under plot_dir p = true →
         files (fs w') !! p = None ∧ (p ∉ dirs (fs w')).
Proof.
  intros Ha H. unfold publish_image in H.
  apply bind_inv_ok in H as ([] & w1 & _ & H).
  apply bind_inv_ok in H as (image_filename & w1' & _ & H).
  apply bind_inv_ok in H as (display_data & w3 & _ & H).
  apply bind_inv_ok in H as (save & w3' & _ & H).
  apply bind_inv_ok in H as ([] & w4 & _ & H).
  apply bind_inv_ok in H as ([] & w5 & Hrm & H).
  apply (rmtree_ok _ _ _ Ha) in Hrm.
  pose proof (publish_loop_fs (String.eqb (v_plot_format l) "svg")
                display_data w5) as Hfs.
  rewrite H in Hfs. simpl in Hfs. rewrite Hfs, Hrm.
  apply remove_tree_gone.
Qed.

Lemma format_image_filename plot_dir fmt :
  format "%s/tikz.%s" (Tuple [VStr plot_dir; VStr fmt])
  = Ok (plot_dir +:+ "/tikz." +:+ fmt).
Proof.
  change (format "%s/tikz.%s" (Tuple [VStr plot_dir; VStr fmt]))
    with (Ok (plot_dir +:+ "/tikz." +:+ (fmt +:+ ""))).
  by rewrite StrFacts.append_empty_r.
Qed.

Lemma format_image_type fmt :
  format "image/%s" (Tuple [VStr fmt]) = Ok ("image/" +:+ fmt).
Proof.
  change (format "image/%s" (Tuple [VStr fmt]))
    with (Ok ("image/" +:+ (fmt +:+ ""))).
  by rewrite StrFacts.append_empty_r.
Qed.

Lemma read_bytes_abs p w :
  is_abs p = true →
  read_bytes p w
  = (match files (fs w) !! p with
     | Some bytes => Ok bytes
     | None => Raise (OSError ("No such file or directory: " +:+ p))
     end, log_event (EvOpen "rb" p) w).
Proof.
  intros Ha. unfold read_bytes, bind, emit, get_world, ret, raise. simpl.
  rewrite resolve_abs by done. by destruct (files (fs w) !! p).
Qed.

Lemma rmtree_abs d w :
  is_abs d = true → d ∈ dirs (fs w) →
  rmtree d w
  = (Ok tt, set_fs (remove_tree d (fs w)) (log_event (EvRmtree d) w)).
Proof.
  intros Ha Hd. unfold rmtree, bind, emit, get_world, raise, modify_fs.
  simpl. rewrite resolve_abs by done. by rewrite decide_True.
Qed.

(** X18.  A format that needs no conversion ([png], [pdf], ...), no save
    destination, the image there and the size well formed: the block
    reads the image, removes the temporary directory and then publishes
    one payload, the bytes of the image under the MIME type of the table,
    or [image/<format>] for a format the table does not list, without
    metadata. *)
Theorem publish_image_plain o l plot_dir w image wh :
  v_plot_format l ∉ ["jpg"; "jpeg"; "svg"] →
  o_save o = None →
  is_abs plot_dir = true → plot_dir ∈ dirs (fs w) →
  files (fs w) !! (plot_dir +:+ "/tikz." +:+ v_plot_format l) = Some image →
  size_pixels (v_size l) = Ok wh →
  publish_image shell parseString toxml (namespace_of o) l plot_dir w
  = (Ok tt,
     log_event
       (EvPublish "ThaplMagic.Thapl"
          [(default ("image/" +:+ v_plot_format l)
              (_mimetypes !! v_plot_format l), image)] None)
       (set_fs (remove_tree plot_dir (fs w))
          (log_event (EvRmtree plot_dir)
             (log_event
                (EvOpen "rb" (plot_dir +:+ "/tikz." +:+ v_plot_format l))
                w)))).
Proof.
  intros Hfmt Hsave Ha Hd Himg Hsz.
  assert (String.eqb (v_plot_format l) "jpg" = false
          ∧ String.eqb (v_plot_format l) "jpeg" = false
          ∧ String.eqb (v_plot_format l) "svg" = false) as (Hj & Hjp & Hs).
  { repeat split; apply String.eqb_neq; intros E; apply Hfmt; rewrite E;
      set_solver. }
  unfold publish_image, getattr.
  rewrite namespace_save, Hsave, Hj, Hjp, Hs,
    format_image_filename, format_image_type, Hsz.
  cbv beta iota zeta delta [bind ret lift try_except orb from_option].
  rewrite read_bytes_abs by by apply is_abs_app.
  rewrite Himg, rmtree_abs by done.
  reflexivity.
Qed.

(** X19.  A format that needs no conversion, no save destination, and no
    image in the temporary directory: the block says so on standard
    error, removes the temporary directory and publishes nothing; it
    returns normally. *)
Theorem publish_image_missing o l plot_dir w :
  v_plot_format l ∉ ["jpg"; "jpeg"; "svg"] →
  o_save o = None →
  is_abs plot_dir = true → plot_dir ∈ dirs (fs w) →
  files (fs w) !! (plot_dir +:+ "/tikz." +:+ v_plot_format l) = None →
  publish_image shell parseString toxml (namespace_of o) l plot_dir w
  = (Ok tt,
     set_fs (remove_tree plot_dir (fs w))
       (log_event (EvRmtree plot_dir)
          (log_event (EvPrint Stderr ("No image generated." +:+ nl))
             (log_event
                (EvOpen "rb" (plot_dir +:+ "/tikz." +:+ v_plot_format l))
                w)))).
Proof.
  intros Hfmt Hsave Ha Hd Himg.
  assert (String.eqb (v_plot_format l) "jpg" = false
          ∧ String.eqb (v_plot_format l) "jpeg" = false
          ∧ String.eqb (v_plot_format l) "svg" = false) as (Hj & Hjp & Hs).
  { repeat split; apply String.eqb_neq; intros E; apply Hfmt; rewrite E;
      set_solver. }
  unfold publish_image, getattr.
  rewrite namespace_save, Hsave, Hj, Hjp, Hs,
    format_image_filename, format_image_type.
  cbv beta iota zeta delta [bind ret lift try_except orb from_option].
  rewrite read_bytes_abs by by apply is_abs_app.
  rewrite Himg.
  cbv beta iota zeta delta [is_OSError print emit].
  rewrite rmtree_abs by done.
  reflexivity.
Qed.

(** X20.  The [svg] format, once the conversion has returned, with the image
    there, a well-formed size and an image whose size can be set: the one
    payload published is the image with its size set, under
    [image/svg+xml], with the metadata [isolated] set to [true], after
    the temporary directory has been removed. *)
Theorem publish_image_svg o l plot_dir w w1 image wh sized :
  v_plot_format l = "svg" → o_save o = None →
  is_abs plot_dir = true →
  _convert_pdf_to_svg shell plot_dir w = (Ok tt, w1) →
  plot_dir ∈ dirs (fs w1) →
  files (fs w1) !! (plot_dir +:+ "/tikz.svg") = Some image →
  size_pixels (v_size l) = Ok wh →
  _fix_gnuplot_svg_size parseString toxml image (Some wh) = Ok sized →
  publish_image shell parseString toxml (namespace_of o) l plot_dir w
  = (Ok tt,
     log_event
       (EvPublish "ThaplMagic.Thapl" [("image/svg+xml", sized)]
          (Some [("isolated", "true")]))
       (set_fs (remove_tree plot_dir (fs w1))
          (log_event (EvRmtree plot_dir)
             (log_event (EvOpen "rb" (plot_dir +:+ "/tikz.svg")) w1)))).
Proof.
  intros Hfmt Hsave Ha Hconv Hd Himg Hsz Hfix.
  unfold publish_image, getattr.
  rewrite namespace_save, Hsave, Hfmt, format_image_filename,
    format_image_type, Hsz.
  change (_mimetypes !! "svg") with (Some "image/svg+xml").
  change (String.eqb "svg" "jpg" || String.eqb "svg" "jpeg") with false.
  change (String.eqb "svg" "svg") with true.
  change ("/tikz." +:+ "svg") with "/tikz.svg".
  change ("image/" +:+ "svg") with "image/svg".
  cbv beta iota.
  cbv beta iota zeta delta [bind ret lift try_except orb from_option].
  rewrite Hconv, read_bytes_abs by by apply is_abs_app.
  rewrite Himg. cbv beta iota. rewrite Hfix, rmtree_abs by done.
  reflexivity.
Qed.

(** X21.  The [svg] format with an image whose size cannot be set (it does not
    parse, or holds no single [svg] element): the exception leaves the
    block, nothing is published, and the temporary directory is not
    removed. *)
Theorem publish_image_svg_malformed o l plot_dir w w1 image wh e :
  v_plot_format l = "svg" →
  is_abs plot_dir = true →
  _convert_pdf_to_svg shell plot_dir w = (Ok tt, w1) →
  plot_dir ∈ dirs (fs w1) →
  files (fs w1) !! (plot_dir +:+ "/tikz.svg") = Some image →
  size_pixels (v_size l) = Ok wh →
  _fix_gnuplot_svg_size parseString toxml image (Some wh) = Raise e →
  is_OSError e = false →
  let w' := log_event (EvOpen "rb" (plot_dir +:+ "/tikz.svg")) w1 in
  publish_image shell parseString toxml (namespace_of o) l plot_dir w
  = (Raise e, w')
  ∧ plot_dir ∈ dirs (fs w').
Proof.
  intros Hfmt Ha Hconv Hd Himg Hsz Hfix He w'. split; [| done].
  unfold publish_image, getattr.
  rewrite Hfmt, format_image_filename, format_image_type, Hsz.
  change (String.eqb "svg" "jpg" || String.eqb "svg" "jpeg") with false.
  change (String.eqb "svg" "svg") with true.
  change ("/tikz." +:+ "svg") with "/tikz.svg".
  change ("image/" +:+ "svg") with "image/svg".
  cbv beta iota.
  cbv beta iota zeta delta [bind ret lift try_except orb from_option].
  rewrite Hconv, read_bytes_abs by by apply is_abs_app.
  rewrite Himg. cbv beta iota. by rewrite Hfix, He.
Qed.

End PublishImage.

(** Concrete settings for the block: options that ask for a format, and
    the prepared world with one more file in the temporary directory. *)
Module Drawn.

Definition with_format (f : string) : Options :=
  mkOptions None None (Some f) None None None None None None None
            false false None [].

Definition holding (name content : string) : World :=
  set_fs (put_file ("/tmp/tmpk3x/" +:+ name) content (fs Scenario.prepared))
    Scenario.prepared.

Definition nested_svg : string → Res Node :=
  λ _, Ok (Element "svg" [] [Element "svg" [] []]).

End Drawn.

Lemma publish_image_removes_directory_witness :
  let w' := (publish_image Scenario.succeeds_idle Scenario.one_svg
               Scenario.show_size (namespace_of no_options)
               (Scenario.locals_for no_options "p") "/tmp/tmpk3x"
               (Drawn.holding "tikz.png" "PNG")).2 in
  ("/tmp/tmpk3x" ∉ dirs (fs w'))
  ∧ ∀ p, under "/tmp/tmpk3x" p = true →
         files (fs w') !! p = None ∧ (p ∉ dirs (fs w')).
Proof.
  intros w'.
  apply (publish_image_removes_directory Scenario.succeeds_idle
           Scenario.one_svg Scenario.show_size (namespace_of no_options)
           (Scenario.locals_for no_options "p") "/tmp/tmpk3x"
           (Drawn.holding "tikz.png" "PNG") w');
    by vm_compute.
Defined.

Lemma publish_image_plain_witness :
  publish_image Scenario.succeeds_idle Scenario.one_svg Scenario.show_size
    (namespace_of (Drawn.with_format "pdf"))
    (Scenario.locals_for (Drawn.with_format "pdf") "p") "/tmp/tmpk3x"
    (Drawn.holding "tikz.pdf" "PDF")
  = (Ok tt,
     log_event
       (EvPublish "ThaplMagic.Thapl"
          [(default ("image/" +:+ "pdf") (_mimetypes !! "pdf"), "PDF")] None)
       (set_fs (remove_tree "/tmp/tmpk3x" (fs (Drawn.holding "tikz.pdf" "PDF")))
          (log_event (EvRmtree "/tmp/tmpk3x")
             (log_event (EvOpen "rb" ("/tmp/tmpk3x" +:+ "/tikz." +:+ "pdf"))
                (Drawn.holding "tikz.pdf" "PDF"))))).
Proof.
  apply (publish_image_plain Scenario.succeeds_idle Scenario.one_svg
           Scenario.show_size (Drawn.with_format "pdf")
           (Scenario.locals_for (Drawn.with_format "pdf") "p") "/tmp/tmpk3x"
           (Drawn.holding "tikz.pdf" "PDF") "PDF" (400, 240));
    first [ by vm_compute | apply (bool_decide_unpack _); by vm_compute ].
Defined.

Lemma publish_image_missing_witness :
  publish_image Scenario.succeeds_idle Scenario.one_svg Scenario.show_size
    (namespace_of no_options) (Scenario.locals_for no_options "p")
    "/tmp/tmpk3x" Scenario.prepared
  = (Ok tt,
     set_fs (remove_tree "/tmp/tmpk3x" (fs Scenario.prepared))
       (log_event (EvRmtree "/tmp/tmpk3x")
          (log_event (EvPrint Stderr ("No image generated." +:+ nl))
             (log_event (EvOpen "rb" ("/tmp/tmpk3x" +:+ "/tikz." +:+ "png"))
                Scenario.prepared)))).
Proof.
  apply (publish_image_missing Scenario.succeeds_idle Scenario.one_svg
           Scenario.show_size no_options
           (Scenario.locals_for no_options "p") "/tmp/tmpk3x"
           Scenario.prepared);
    first [ by vm_compute | apply (bool_decide_unpack _); by vm_compute ].
Defined.

Lemma publish_image_svg_witness :
  let w1 := (_convert_pdf_to_svg Scenario.succeeds_idle "/tmp/tmpk3x"
               (Drawn.holding "tikz.svg" "<svg/>")).2 in
  publish_image Scenario.succeeds_idle Scenario.one_svg Scenario.show_size
    (namespace_of (Drawn.with_format "svg"))
    (Scenario.locals_for (Drawn.with_format "svg") "p") "/tmp/tmpk3x"
    (Drawn.holding "tikz.svg" "<svg/>")
  = (Ok tt,
     log_event
       (EvPublish "ThaplMagic.Thapl" [("image/svg+xml", "400px 240px")]
          (Some [("isolated", "true")]))
       (set_fs (remove_tree "/tmp/tmpk3x" (fs w1))
          (log_event (EvRmtree "/tmp/tmpk3x")
             (log_event (EvOpen "rb" ("/tmp/tmpk3x" +:+ "/tikz.svg")) w1)))).
Proof.
  intros w1.
  apply (publish_image_svg Scenario.succeeds_idle Scenario.one_svg
           Scenario.show_size (Drawn.with_format "svg")
           (Scenario.locals_for (Drawn.with_format "svg") "p") "/tmp/tmpk3x"
           (Drawn.holding "tikz.svg" "<svg/>") w1 "<svg/>" (400, 240));
    first [ by vm_compute | apply (bool_decide_unpack _); by vm_compute ].
Defined.

Lemma publish_image_svg_malformed_witness :
  let w1 := (_convert_pdf_to_svg Scenario.succeeds_idle "/tmp/tmpk3x"
               (Drawn.holding "tikz.svg" "<svg><svg/></svg>")).2 in
  let w' := log_event (EvOpen "rb" ("/tmp/tmpk3x" +:+ "/tikz.svg")) w1 in
  publish_image Scenario.succeeds_idle Drawn.nested_svg Scenario.show_size
    (namespace_of (Drawn.with_format "svg"))
    (Scenario.locals_for (Drawn.with_format "svg") "p") "/tmp/tmpk3x"
    (Drawn.holding "tikz.svg" "<svg><svg/></svg>")
  = (Raise (ValueError "too many values to unpack (expected 1)"), w')
  ∧ "/tmp/tmpk3x" ∈ dirs (fs w').
Proof.
  intros w1.
  apply (publish_image_svg_malformed Scenario.succeeds_idle Drawn.nested_svg
           Scenario.show_size (Drawn.with_format "svg")
           (Scenario.locals_for (Drawn.with_format "svg") "p") "/tmp/tmpk3x"
           (Drawn.holding "tikz.svg" "<svg><svg/></svg>") w1
           "<svg><svg/></svg>" (400, 240));
    first [ by vm_compute | apply (bool_decide_unpack _); by vm_compute ].
Defined.

(** ** The entry point and the text of the cell *)

Section EntryPoint.
Import NsFacts.

Variable encode_text : string → string → Res string.
Variable decode_text : string → Res string.
Variable shell : string → gmap string string → string → FS → Outcome.
Variable mkdtemp_name : FS → string.
Variable parseString : string → Res Node.
Variable toxml : Node → string.
Variable parse_argstring : string → Res Options.

(** X1.  No invocation of the magic returns normally, and none has any effect:
    whatever the line and the cell, [thapl] raises, and the world is as
    it was.  The exception is the parser's, or [ValueError] from the
    unpacking of the size, or [AttributeError] for [python_path]. *)
Theorem thapl_never_returns line cell w :
  ∃ e,
    thapl encode_text decode_text shell mkdtemp_name parseString toxml
      parse_argstring line cell w = (Raise e, w)
    ∧ (parse_argstring line = Raise e
       ∨ e = AttributeError "python_path"
       ∨ ∃ m, e = ValueError m).
Proof.
  rewrite thapl_outcome.
  destruct (parse_argstring line) as [o|e]; [| by eauto].
  destruct (unpack2_length (split "," (default "400,240" (o_size o))))
    as [[_ (x & y & ->)] | [_ (m & ->)]]; eauto 10.
Qed.

Lemma join_empty_app l code :
  join "" l +:+ code = foldr String.append code l.
Proof.
  induction l as [|x [|y l] IH]; [done | done |].
  change (join "" (x :: y :: l)) with (x +:+ "" +:+ join "" (y :: l)).
  change ("" +:+ join "" (y :: l)) with (join "" (y :: l)).
  change (foldr String.append code (x :: y :: l))
    with (x +:+ foldr String.append code (y :: l)).
  rewrite <- IH. apply StrFacts.append_assoc.
Qed.

(** X2.  The words of the line that are no options are put before the text of
    the cell, in order and glued together with nothing between them; with
    no cell the code is those words alone. *)
Theorem code_words_glued o cell :
  cell_code (namespace_of o) cell
  = Ok (foldr String.append (default "" cell) (o_code o)).
Proof.
  unfold cell_code, getattr. rewrite namespace_code. simpl.
  by rewrite join_empty_app.
Qed.

End EntryPoint.

Section Pdf2Svg.
Import Frame.

Variable shell : string → gmap string string → string → FS → Outcome.

(** The events of a conversion to SVG: changes of directory, lines on
    standard error, and the one fixed command line. *)
Definition svg_conversion_event (e : Event) : Prop :=
  match e with
  | EvChdir _ | EvPrint Stderr _ => True
  | EvCall cmd _ => cmd = "pdf2svg magic.pdf magic.svg"
  | _ => False
  end.

(** X9.  [_convert_pdf_to_svg] runs no command but [pdf2svg], from
    [magic.pdf] to [magic.svg]; it opens no file itself, publishes
    nothing, removes nothing, and leaves the process environment as it
    was. *)
Theorem convert_pdf_to_svg_command dir w :
  extends svg_conversion_event w (_convert_pdf_to_svg shell dir w).2.
Proof.
  revert w. change (keeps svg_conversion_event (_convert_pdf_to_svg shell dir)).
  unfold _convert_pdf_to_svg.
  apply keeps_bind; [apply keeps_getcwd | intros cur].
  apply keeps_bind; [by apply keeps_chdir | intros _].
  apply keeps_bind; [| intros _; by apply keeps_chdir].
  apply keeps_try; [| intros e; by apply keeps_print].
  apply keeps_bind; [by apply keeps_call | intros rc].
  destruct (negb _); [by apply keeps_print | apply keeps_ret].
Qed.

End Pdf2Svg.

(** * The invocation as a whole *)

Section Invocation.
Import NsFacts.

Variable encode_text : string → string → Res string.
Variable decode_text : string → Res string.
Variable shell : string → gmap string string → string → FS → Outcome.
Variable mkdtemp_name : FS → string.
Variable parseString : string → Res Node.
Variable toxml : Node → string.
Variable parse_argstring : string → Res Options.

Let invoke :=
  thapl encode_text decode_text shell mkdtemp_name parseString toxml
    parse_argstring.

(** An invocation on an accepted line raises, on the size or on
    [python_path], and leaves the world as it was. *)
Lemma accepted_line_raises line cell w o :
  parse_argstring line = Ok o →
  ∃ e, invoke line cell w = (Raise e, w)
       ∧ (e = AttributeError "python_path" ∨ ∃ m, e = ValueError m).
Proof.
  intros Hp. unfold invoke. rewrite thapl_outcome, Hp.
  destruct (unpack2_length (split "," (default "400,240" (o_size o))))
    as [[_ (x & y & ->)] | [_ (m & ->)]]; eauto.
Qed.

Lemma invocation_keeps_world line cell w : (invoke line cell w).2 = w.
Proof. unfold invoke. by rewrite thapl_outcome. Qed.


(** C6, the code against the claim.  With [--showlatex] on an accepted
    line the invocation does not end successfully and emits nothing: it
    raises, on [python_path] or on the size, and the world is as before,
    so that no directory was created and no subprocess run, but neither
    was the source text printed, on either stream. *)
Theorem showlatex_prints_nothing line cell w o :
  parse_argstring line = Ok o → o_showlatex o = true →
  ∃ e, invoke line cell w = (Raise e, w)
       ∧ (e = AttributeError "python_path" ∨ ∃ m, e = ValueError m).
Proof. intros Hp _. by apply accepted_line_raises with o. Qed.

(** No locals and no options let a document be put together. *)
Lemma assemble_tex_raises o l code plot_dir :
  assemble_tex (namespace_of o) l code plot_dir
  = Raise (ValueError "unsupported format character p").
Proof.
  unfold assemble_tex.
  destruct (tex_preamble_ok o l code plot_dir) as [tex ->].
  cbv beta iota zeta delta [rbind].
  rewrite format_begin.
  cbv beta iota zeta delta [rbind].
  by rewrite format_bash.
Qed.

(** C8, the code against the claim.  With a package option on an
    accepted line no document is assembled: the invocation raises, on
    [python_path] or on the size, with the world as before, so that no
    document reaches a file; and were the arguments read, whatever the
    locals, putting the document together would raise at the
    shell-escape block, after the package entries. *)
Theorem packages_reach_no_document line cell w o pkgs :
  parse_argstring line = Ok o → o_package o = Some pkgs →
  (∃ e, invoke line cell w = (Raise e, w)
        ∧ (e = AttributeError "python_path" ∨ ∃ m, e = ValueError m))
  ∧ ∀ l code plot_dir,
      is_Ok (assemble_tex (namespace_of o) l code plot_dir) = false.
Proof.
  intros Hp _. split; [by apply accepted_line_raises with o |].
  intros l code plot_dir. by rewrite assemble_tex_raises.
Qed.

(** C10, the code against the claim.  With a save destination on an
    accepted line nothing is saved: the invocation raises, on
    [python_path] or on the size, before anything is rendered or copied,
    and the file system holds afterwards what it held before, at the
    destination as everywhere else. *)
Theorem save_destination_untouched line cell w o dst :
  parse_argstring line = Ok o → o_save o = Some dst →
  (∃ e, invoke line cell w = (Raise e, w)
        ∧ (e = AttributeError "python_path" ∨ ∃ m, e = ValueError m))
  ∧ fs (invoke line cell w).2 = fs w.
Proof.
  intros Hp _. split; [by apply accepted_line_raises with o |].
  by rewrite invocation_keeps_world.
Qed.

End Invocation.

(** * A failed LaTeX run *)

Section FailedEngine.
Import Frame MFacts.

Variable encode_text : string → string → Res string.
Variable decode_text : string → Res string.
Variable shell : string → gmap string string → string → FS → Outcome.





End FailedEngine.



(** Concrete invocations: the line as the parser reads it, on the world
    of the concrete setting, with a tool chain that would draw. *)
Module Asked.
Import Scenario.

Definition with_package (p : string) : Options :=
  mkOptions None None None None None (Some p) None None None None
            false false None [].

Definition magic (line : string) (o : Options) : Res unit * World :=
  thapl utf8 locale latex_draws tmpdir one_svg show_size (parsed o) line
    (Some "\draw (0,0) -- (1,1);") home.

End Asked.


(** Witness of [showlatex_prints_nothing]: the line [--showlatex]. *)
Lemma showlatex_prints_nothing_witness :
  ∃ e, Asked.magic "--showlatex" Scenario.with_showlatex
       = (Raise e, Scenario.home)
       ∧ (e = AttributeError "python_path" ∨ ∃ m, e = ValueError m).
Proof.
  apply (showlatex_prints_nothing Scenario.utf8 Scenario.locale
           Scenario.latex_draws Scenario.tmpdir Scenario.one_svg
           Scenario.show_size (Scenario.parsed Scenario.with_showlatex)
           "--showlatex" (Some "\draw (0,0) -- (1,1);") Scenario.home
           Scenario.with_showlatex); reflexivity.
Defined.

(** Witness of [packages_reach_no_document]: the line
    [-p pgfplots,textcomp]. *)
Lemma packages_reach_no_document_witness :
  (∃ e, Asked.magic "-p pgfplots,textcomp"
          (Asked.with_package "pgfplots,textcomp")
        = (Raise e, Scenario.home)
        ∧ (e = AttributeError "python_path" ∨ ∃ m, e = ValueError m))
  ∧ ∀ l code plot_dir,
      is_Ok (assemble_tex
               (namespace_of (Asked.with_package "pgfplots,textcomp"))
               l code plot_dir) = false.
Proof.
  apply (packages_reach_no_document Scenario.utf8 Scenario.locale
           Scenario.latex_draws Scenario.tmpdir Scenario.one_svg
           Scenario.show_size
           (Scenario.parsed (Asked.with_package "pgfplots,textcomp"))
           "-p pgfplots,textcomp" (Some "\draw (0,0) -- (1,1);")
           Scenario.home (Asked.with_package "pgfplots,textcomp")
           "pgfplots,textcomp"); reflexivity.
Defined.

(** Witness of [save_destination_untouched]: the line [-S out.png]. *)
Lemma save_destination_untouched_witness :
  (∃ e, Asked.magic "-S out.png" (Scenario.with_save "out.png")
        = (Raise e, Scenario.home)
        ∧ (e = AttributeError "python_path" ∨ ∃ m, e = ValueError m))
  ∧ fs (Asked.magic "-S out.png" (Scenario.with_save "out.png")).2
    = fs Scenario.home.
Proof.
  apply (save_destination_untouched Scenario.utf8 Scenario.locale
           Scenario.latex_draws Scenario.tmpdir Scenario.one_svg
           Scenario.show_size (Scenario.parsed (Scenario.with_save "out.png"))
           "-S out.png" (Some "\draw (0,0) -- (1,1);") Scenario.home
           (Scenario.with_save "out.png") "out.png"); reflexivity.
Defined.
